(** * circana_data_script.py : a shallow embedding and its properties

    The script renames weekly spreadsheet files: it reads a reporting date
    out of each file name, writes a copy with every sheet visible under a
    date-prefixed name and moves the original into an archive directory.

    Python strings are modelled as lists of characters ([list ascii], a
    character standing for the code point of the same number), Python
    integers as [Z], exceptions as values of [exn] carried by [result], and
    the file system and the clock as an explicit [world] threaded through
    the effectful functions. *)

From Stdlib Require Import ZArith Lia Bool Ascii String.
From stdpp Require Import base option list strings gmap.

Local Open Scope Z_scope.

(** ** Strings *)

(** A Python string literal. *)
Definition str (s : string) : list ascii := list_ascii_of_string s.

Definition code (c : ascii) : Z := Z.of_nat (nat_of_ascii c).

(** [\d] on a [str] pattern: the decimal digits. Below code point 256 these
    are exactly the ten characters 0-9. *)
Definition is_digit (c : ascii) : bool := (48 <=? code c) && (code c <=? 57).

(** [\s] on a [str] pattern: below code point 256 the white space characters
    are tab to carriage return, the four separators 0x1c-0x1f, the space,
    0x85 and 0xa0. *)
Definition is_space (c : ascii) : bool :=
  let n := code c in
  ((9 <=? n) && (n <=? 13)) || ((28 <=? n) && (n <=? 32))
  || (n =? 133) || (n =? 160).

Definition digit_value (c : ascii) : Z := code c - 48.

Definition digit_char (d : Z) : ascii := ascii_of_nat (Z.to_nat (48 + d)).

(** ** Exceptions *)

Inductive exn_kind :=
  | ValueError
  | OverflowError
  | FileNotFoundError
  | FileExistsError
  | IsADirectoryError
  | NotADirectoryError
  | InvalidFileException
  | ShutilError.

(** An exception object: its class and the text [str(e)] gives. *)
Record exn := Exn { exn_class : exn_kind; exn_msg : list ascii }.

Inductive result (A : Type) :=
  | Ok (a : A)
  | Raise (e : exn).
Arguments Ok {A} a.
Arguments Raise {A} e.

Definition rbind {A B} (r : result A) (k : A -> result B) : result B :=
  match r with
  | Ok a => k a
  | Raise e => Raise e
  end.

(** ** Integers and text *)

(** [int(s)] for a string of decimal digits, the only strings this program
    converts (the groups of its two patterns); any other string is a
    [ValueError] here. *)
Definition py_int (s : list ascii) : result Z :=
  match s with
  | [] => Raise (Exn ValueError (str "invalid literal for int()"))
  | _ =>
      if forallb is_digit s
      then Ok (fold_left (fun acc c => 10 * acc + digit_value c) s 0)
      else Raise (Exn ValueError (str "invalid literal for int()"))
  end.

(** The decimal digits of a non-negative integer, most significant first.
    [fuel] bounds the number of digits produced. *)
Fixpoint digits_fuel (fuel : nat) (n : Z) (acc : list ascii) : list ascii :=
  match fuel with
  | O => acc
  | S f =>
      let acc' := digit_char (n mod 10) :: acc in
      if n / 10 =? 0 then acc' else digits_fuel f (n / 10) acc'
  end.

Definition digits (n : Z) : list ascii := digits_fuel (S (Z.to_nat n)) n [].

(** [str(n)], also what an f-string field without a format gives. *)
Definition py_str_int (n : Z) : list ascii :=
  if n <? 0 then "-"%char :: digits (- n) else digits n.

(** [n * "0"] then the text, as zero padding to a minimal width does. *)
Definition zero_pad (width : nat) (s : list ascii) : list ascii :=
  replicate (width - length s) "0"%char ++ s.

(** [format(n, "02d")]: a sign if negative, then the digits padded with
    zeros so that the whole field has at least two characters. *)
Definition format_02d (n : Z) : list ascii :=
  if n <? 0 then "-"%char :: zero_pad 1 (digits (- n)) else zero_pad 2 (digits n).

(** ** Regular expressions

    [re.search] tries the pattern at each position from the left and
    returns the groups of the first position where it matches. *)

Fixpoint re_search {G : Type} (here : list ascii -> option G)
    (s : list ascii) : option G :=
  match here s with
  | Some g => Some g
  | None =>
      match s with
      | [] => None
      | _ :: s' => re_search here s'
      end
  end.

Definition groups : Type := list ascii * list ascii * list ascii.

(** [(\d{2})\.(\d{2})\.(\d{2})] at the head of [s]. *)
Definition dot_pattern (s : list ascii) : option groups :=
  match s with
  | a :: b :: p :: c :: d :: q :: e :: f :: _ =>
      if is_digit a && is_digit b && bool_decide (p = "."%char)
         && is_digit c && is_digit d && bool_decide (q = "."%char)
         && is_digit e && is_digit f
      then Some ([a; b], [c; d], [e; f])
      else None
  | _ => None
  end.

(** [(\d{2})(\d{2})(\d{2})] at the head of [s]. *)
Definition six_digits (s : list ascii) : option groups :=
  match s with
  | a :: b :: c :: d :: e :: f :: _ =>
      if is_digit a && is_digit b && is_digit c
         && is_digit d && is_digit e && is_digit f
      then Some ([a; b], [c; d], [e; f])
      else None
  | _ => None
  end.

(** [\s+] followed by [rest]: greedy, one character at least, giving
    characters back when [rest] fails after a longer run. *)
Fixpoint spaces_then {G : Type} (rest : list ascii -> option G)
    (s : list ascii) : option G :=
  match s with
  | c :: s' =>
      if is_space c then
        match spaces_then rest s' with
        | Some g => Some g
        | None => rest s'
        end
      else None
  | [] => None
  end.

(** [WE\s+(\d{2})(\d{2})(\d{2})] at the head of [s]. *)
Definition no_dot_pattern (s : list ascii) : option groups :=
  match s with
  | "W"%char :: "E"%char :: s' => spaces_then six_digits s'
  | _ => None
  end.

(** ** Dates, after CPython's datetime module *)

Record datetime := Date { year : Z; month : Z; day : Z }.

Definition _DAYS_IN_MONTH : list Z :=
  [-1; 31; 28; 31; 30; 31; 30; 31; 31; 30; 31; 30; 31].

Definition _DAYS_BEFORE_MONTH : list Z :=
  [-1; 0; 31; 59; 90; 120; 151; 181; 212; 243; 273; 304; 334].

Definition table (t : list Z) (i : Z) : Z := nth (Z.to_nat i) t 0.

Definition _is_leap (y : Z) : bool :=
  (y mod 4 =? 0) && (negb (y mod 100 =? 0) || (y mod 400 =? 0)).

Definition _days_before_year (y : Z) : Z :=
  let y := y - 1 in y * 365 + y / 4 - y / 100 + y / 400.

Definition _days_in_month (y m : Z) : Z :=
  if (m =? 2) && _is_leap y then 29 else table _DAYS_IN_MONTH m.

Definition _days_before_month (y m : Z) : Z :=
  table _DAYS_BEFORE_MONTH m + (if (2 <? m) && _is_leap y then 1 else 0).

Definition _ymd2ord (y m d : Z) : Z :=
  _days_before_year y + _days_before_month y m + d.

Definition _DI400Y : Z := 146097.
Definition _DI100Y : Z := 36524.
Definition _DI4Y : Z := 1461.
Definition _MAXORDINAL : Z := 3652059.

Definition _ord2ymd (n : Z) : datetime :=
  let n := n - 1 in
  let n400 := n / _DI400Y in
  let n := n mod _DI400Y in
  let y := n400 * 400 + 1 in
  let n100 := n / _DI100Y in
  let n := n mod _DI100Y in
  let n4 := n / _DI4Y in
  let n := n mod _DI4Y in
  let n1 := n / 365 in
  let n := n mod 365 in
  let y := y + n100 * 100 + n4 * 4 + n1 in
  if (n1 =? 4) || (n100 =? 4) then Date (y - 1) 12 31
  else
    let leapyear := (n1 =? 3) && (negb (n4 =? 24) || (n100 =? 3)) in
    let m := Z.shiftr (n + 50) 5 in
    let preceding :=
      table _DAYS_BEFORE_MONTH m + (if (2 <? m) && leapyear then 1 else 0) in
    if n <? preceding then
      let m := m - 1 in
      let preceding :=
        preceding
        - (table _DAYS_IN_MONTH m + (if (m =? 2) && leapyear then 1 else 0)) in
      Date y m (n - preceding + 1)
    else Date y m (n - preceding + 1).

Definition toordinal (d : datetime) : Z := _ymd2ord (year d) (month d) (day d).

(** Monday is 0 and Sunday is 6. *)
Definition weekday (d : datetime) : Z := (toordinal d + 6) mod 7.

(** [d - timedelta(days=k)]. *)
Definition sub_days (d : datetime) (k : Z) : result datetime :=
  let n := toordinal d - k in
  if (0 <? n) && (n <=? _MAXORDINAL) then Ok (_ord2ymd n)
  else Raise (Exn OverflowError (str "date value out of range")).

(** What the constructor of a date accepts. *)
Definition valid_date (d : datetime) : Prop :=
  1 <= year d <= 9999 /\ 1 <= month d <= 12
  /\ 1 <= day d <= _days_in_month (year d) (month d).

(** ** The date of a file name *)

Definition date_tuple : Type := Z * Z * Z.

(** [month, day, year = map(int, match.groups())]. *)
Definition int_groups (g : groups) : result date_tuple :=
  let '(a, b, c) := g in
  rbind (py_int a) (fun m =>
  rbind (py_int b) (fun d =>
  rbind (py_int c) (fun y => Ok (m, d, y)))).

(** [now] is the reading of the clock, [datetime.now()]. *)
Definition extract_date_from_filename (now : datetime)
    (filename : list ascii) : result date_tuple :=
  match re_search dot_pattern filename with
  | Some g =>
      rbind (int_groups g) (fun '(m, d, y) => Ok (m, d, 2000 + y))
  | None =>
      match re_search no_dot_pattern filename with
      | Some g =>
          rbind (int_groups g) (fun '(m, d, y) => Ok (m, d, 2000 + y))
      | None =>
          let today := now in
          let days_since_sunday := weekday today + 1 in
          rbind (sub_days today days_since_sunday) (fun previous_sunday =>
          Ok (month previous_sunday, day previous_sunday,
              year previous_sunday))
      end
  end.

Definition format_date (t : date_tuple) : list ascii :=
  let '(m, d, y) := t in
  format_02d m ++ "-"%char :: format_02d d ++ "-"%char :: py_str_int y.

Definition create_new_filename (now : datetime)
    (original_filename : list ascii) : result (list ascii) :=
  rbind (extract_date_from_filename now original_filename) (fun t =>
  Ok (format_date t ++ "_"%char :: original_filename)).

(** ** Paths, after posixpath *)

Definition is_sep (c : ascii) : bool := bool_decide (c = "/"%char).

(** [p[p.rfind("/") + 1:]]: what follows the last slash. *)
Fixpoint basename (p : list ascii) : list ascii :=
  match p with
  | [] => []
  | c :: p' =>
      if existsb is_sep p' then basename p'
      else if is_sep c then p' else p
  end.

Definition startswith_sep (p : list ascii) : bool :=
  match p with
  | c :: _ => is_sep c
  | [] => false
  end.

Definition endswith_sep (p : list ascii) : bool :=
  match last p with
  | Some c => is_sep c
  | None => false
  end.

(** [os.path.join(a, b)]. *)
Definition join (a b : list ascii) : list ascii :=
  if startswith_sep b then b
  else if bool_decide (a = []) || endswith_sep a then a ++ b
  else a ++ "/"%char :: b.

(** [p.rstrip("/")]. *)
Fixpoint rstrip_sep (p : list ascii) : list ascii :=
  match p with
  | [] => []
  | c :: p' =>
      match rstrip_sep p' with
      | [] => if is_sep c then [] else [c]
      | r => c :: r
      end
  end.

(** [os.path.split(p)]: the head loses its trailing slashes unless it is
    made of slashes only. *)
Definition split (p : list ascii) : list ascii * list ascii :=
  let tail := basename p in
  let head := take (length p - length tail) p in
  (if forallb is_sep head then head else rstrip_sep head, tail).

(** [prefix] starts [s]. *)
Fixpoint startswith (prefix s : list ascii) : bool :=
  match prefix, s with
  | [], _ => true
  | a :: prefix', b :: s' => bool_decide (a = b) && startswith prefix' s'
  | _ :: _, [] => false
  end.

(** [needle in hay] on strings. *)
Fixpoint py_in (needle hay : list ascii) : bool :=
  startswith needle hay
  || match hay with
     | [] => false
     | _ :: hay' => py_in needle hay'
     end.

(** ** The file system and the clock *)

Inductive visibility := visible | hidden | veryHidden.

Record worksheet := Worksheet { title : list ascii; sheet_state : visibility }.

(** What a file holds: a workbook openpyxl can load, or anything else. *)
Inductive content :=
  | Workbook (worksheets : list worksheet)
  | Other (raw : list ascii).

Inductive node :=
  | File (c : content)
  | Directory.

(** Every node is named by one path string: no links, and no second
    spelling of a path. The directory a file is in is read off its path. *)
Record world := World { nodes : gmap (list ascii) node; clock : datetime }.

Definition set_nodes (w : world) (m : gmap (list ascii) node) : world :=
  World m (clock w).

(** A computation that reads and writes the world and may raise; the world
    an exception leaves behind is kept. *)
Definition M (A : Type) : Type := world -> result A * world.

Definition ret {A : Type} (a : A) : M A := fun w => (Ok a, w).

Definition raise {A : Type} (e : exn) : M A := fun w => (Raise e, w).

Definition bind {A B : Type} (m : M A) (k : A -> M B) : M B :=
  fun w =>
    match m w with
    | (Ok a, w') => k a w'
    | (Raise e, w') => (Raise e, w')
    end.

Notation "'do' x <~ m 'in' k" := (bind m (fun x => k))
  (at level 10, x name, m at level 99, k at level 200).

(** A pure computation that may raise, given the clock. *)
Definition with_clock {A : Type} (f : datetime -> result A) : M A :=
  fun w => (f (clock w), w).

Definition isdir (w : world) (p : list ascii) : bool :=
  match nodes w !! p with
  | Some Directory => true
  | _ => false
  end.

Definition path_exists (w : world) (p : list ascii) : bool :=
  match nodes w !! p with
  | Some _ => true
  | None => false
  end.

(** [os.makedirs(name, exist_ok=True)]: nothing to do for a directory,
    [FileExistsError] when a file has the name. *)
Definition makedirs (name : list ascii) : M unit := fun w =>
  match nodes w !! name with
  | Some Directory => (Ok tt, w)
  | Some (File _) =>
      (Raise (Exn FileExistsError (str "[Errno 17] File exists: " ++ name)), w)
  | None =>
      if bool_decide (name = []) then
        (Raise (Exn FileNotFoundError
                  (str "[Errno 2] No such file or directory: " ++ name)), w)
      else (Ok tt, set_nodes w (<[name := Directory]> (nodes w)))
  end.

(** [openpyxl.load_workbook(path)]. *)
Definition load_workbook (path : list ascii) : M (list worksheet) := fun w =>
  match nodes w !! path with
  | Some (File (Workbook sheets)) => (Ok sheets, w)
  | Some (File (Other _)) =>
      (Raise (Exn InvalidFileException (str "File is not a zip file")), w)
  | Some Directory =>
      (Raise (Exn IsADirectoryError
                (str "[Errno 21] Is a directory: " ++ path)), w)
  | None =>
      (Raise (Exn FileNotFoundError
                (str "[Errno 2] No such file or directory: " ++ path)), w)
  end.

(** [wb.save(path)]: the file is created or replaced. *)
Definition save_workbook (wb : list worksheet) (path : list ascii) : M unit :=
  fun w =>
    match nodes w !! path with
    | Some Directory =>
        (Raise (Exn IsADirectoryError
                  (str "[Errno 21] Is a directory: " ++ path)), w)
    | _ => (Ok tt, set_nodes w (<[path := File (Workbook wb)]> (nodes w)))
    end.

(** [os.rename(src, dst)]. *)
Definition rename (src dst : list ascii) : M unit := fun w =>
  match nodes w !! src with
  | None =>
      (Raise (Exn FileNotFoundError
                (str "[Errno 2] No such file or directory: " ++ src)), w)
  | Some n =>
      match n, nodes w !! dst with
      | File _, Some Directory =>
          (Raise (Exn IsADirectoryError
                    (str "[Errno 21] Is a directory: " ++ dst)), w)
      | Directory, Some (File _) =>
          (Raise (Exn NotADirectoryError
                    (str "[Errno 20] Not a directory: " ++ dst)), w)
      | _, _ => (Ok tt, set_nodes w (<[dst := n]> (delete src (nodes w))))
      end
  end.

(** [shutil.move(src, dst)]: into [dst] when it is a directory, refusing to
    replace an entry there; onto [dst] otherwise. The program moves files
    only; the entries under a moved directory are not followed. *)
Definition move (src dst : list ascii) : M (list ascii) := fun w =>
  if isdir w dst then
    if bool_decide (src = dst) then
      bind (rename src dst) (fun _ => ret dst) w
    else
      let real_dst := join dst (basename (rstrip_sep src)) in
      if path_exists w real_dst then
        (Raise (Exn ShutilError
                  (str "Destination path '" ++ real_dst
                   ++ str "' already exists")), w)
      else bind (rename src real_dst) (fun _ => ret real_dst) w
  else bind (rename src dst) (fun _ => ret dst) w.

(** Names starting with a dot are skipped by a pattern that does not. *)
Definition ishidden (name : list ascii) : bool :=
  match name with
  | "."%char :: _ => true
  | _ => false
  end.

(** [fnmatch] for the patterns of this program, a star then literal text;
    any other pattern is taken literally. *)
Definition fnmatch (name pat : list ascii) : bool :=
  match pat with
  | "*"%char :: lit => bool_decide (lit `suffix_of` name)
  | _ => bool_decide (name = pat)
  end.

(** The entry of directory [dirname] that path [k] names, if it names one. *)
Definition entry_name (dirname k : list ascii) : option (list ascii) :=
  let n := basename k in
  if bool_decide (n <> [] /\ join dirname n = k) then Some n else None.

(** The names in a directory, in the order the file system lists them. *)
Definition listdir (w : world) (dirname : list ascii) : list (list ascii) :=
  omap (entry_name dirname) (map_to_list (nodes w)).*1.

(** [glob.glob(pattern)] for a pattern whose directory part is literal. *)
Definition glob (w : world) (pattern : list ascii) : list (list ascii) :=
  let '(dirname, pat) := split pattern in
  map (join dirname)
    (List.filter (fun n => negb (ishidden n) && fnmatch n pat)
       (listdir w dirname)).

(** ** The program on files *)

Definition get_output_path (filename output_dir : list ascii)
    : M (list ascii) :=
  do _ <~ makedirs output_dir in
  ret (join output_dir filename).

Definition get_archive_path (filename archive_dir : list ascii)
    : M (list ascii) :=
  do _ <~ makedirs archive_dir in
  ret (join archive_dir filename).

Definition find_excel_files (directory : list ascii)
    : M (list (list ascii)) := fun w =>
  let excel_files :=
    flat_map (fun ext => glob w (join directory ext))
      [str "*.xlsx"; str "*.xls"] in
  let filtered_files :=
    List.filter
      (fun file_path =>
         negb (py_in (str "modified_excel_workbooks") file_path)
         && negb (py_in (str "archived_data") file_path))
      excel_files in
  (Ok filtered_files, w).

Definition make_visible (sheet : worksheet) : worksheet :=
  Worksheet (title sheet) visible.

(** [if output_path:] holds for a string that is given and not empty. *)
Definition unhide_all_sheets (excel_path : list ascii)
    (output_path : option (list ascii)) : M unit :=
  do wb <~ load_workbook excel_path in
  let wb := map make_visible wb in
  match output_path with
  | Some (c :: p) => save_workbook wb (c :: p)
  | _ => save_workbook wb excel_path
  end.

Definition process_excel_file (excel_path output_dir archive_dir : list ascii)
    : M (list ascii) :=
  let filename := basename excel_path in
  do new_filename <~ with_clock (fun now => create_new_filename now filename) in
  do output_path <~ get_output_path new_filename output_dir in
  do archive_path <~ get_archive_path filename archive_dir in
  do _ <~ unhide_all_sheets excel_path (Some output_path) in
  do _ <~ move excel_path archive_path in
  ret output_path.

(** One value of the result dictionary. *)
Record entry := Entry {
  status : bool;
  output : option (list ascii);
  error : option (list ascii)
}.

(** A Python dictionary keeps its keys in the order they were first set. *)
Definition dict : Type := list (list ascii * entry).

(** [d[k] = v]. *)
Fixpoint dict_set (d : dict) (k : list ascii) (v : entry) : dict :=
  match d with
  | [] => [(k, v)]
  | (k', v') :: d' =>
      if bool_decide (k' = k) then (k, v) :: d'
      else (k', v') :: dict_set d' k v
  end.

(** [d[k][field] = x] for a key that is set: the value is changed in
    place. *)
Fixpoint dict_modify (d : dict) (k : list ascii) (f : entry -> entry) : dict :=
  match d with
  | [] => []
  | (k', v') :: d' =>
      if bool_decide (k' = k) then (k', f v') :: d'
      else (k', v') :: dict_modify d' k f
  end.

Definition set_status (b : bool) (e : entry) : entry :=
  Entry b (output e) (error e).

Definition set_output (p : list ascii) (e : entry) : entry :=
  Entry (status e) (Some p) (error e).

Definition set_error (msg : list ascii) (e : entry) : entry :=
  Entry (status e) (output e) (Some msg).

(** The loop of [process_all_excel_files]; [except Exception] catches every
    exception of [exn]. *)
Fixpoint process_each (output_dir archive_dir : list ascii)
    (excel_files : list (list ascii)) (results : dict) : M dict :=
  match excel_files with
  | [] => ret results
  | file_path :: rest =>
      let results := dict_set results file_path (Entry false None None) in
      fun w =>
        match process_excel_file file_path output_dir archive_dir w with
        | (Ok output_path, w') =>
            let results := dict_modify results file_path (set_status true) in
            let results :=
              dict_modify results file_path (set_output output_path) in
            process_each output_dir archive_dir rest results w'
        | (Raise e, w') =>
            let results :=
              dict_modify results file_path (set_error (exn_msg e)) in
            process_each output_dir archive_dir rest results w'
        end
  end.

Definition process_all_excel_files
    (directory output_dir archive_dir : list ascii) : M dict :=
  do excel_files <~ find_excel_files directory in
  process_each output_dir archive_dir excel_files [].

(** ** What the claims say about file names *)

(** The number two decimal digits write. *)
Definition two_digits (a b : ascii) : Z := 10 * digit_value a + digit_value b.

(** [s] starts with two digits, a dot, two digits, a dot and two digits; the
    triple holds the three numbers in the order they are written. *)
Inductive dotted_date : list ascii -> date_tuple -> Prop :=
  | dotted_date_intro a b c d e f rest :
      is_digit a = true -> is_digit b = true -> is_digit c = true ->
      is_digit d = true -> is_digit e = true -> is_digit f = true ->
      dotted_date
        (a :: b :: "."%char :: c :: d :: "."%char :: e :: f :: rest)
        (two_digits a b, two_digits c d, two_digits e f).

(** [s] starts with the token WE, then white space, then six digits. *)
Inductive we_date : list ascii -> date_tuple -> Prop :=
  | we_date_intro ws a b c d e f rest :
      ws <> [] -> forallb is_space ws = true ->
      is_digit a = true -> is_digit b = true -> is_digit c = true ->
      is_digit d = true -> is_digit e = true -> is_digit f = true ->
      we_date
        ("W"%char :: "E"%char :: ws ++ a :: b :: c :: d :: e :: f :: rest)
        (two_digits a b, two_digits c d, two_digits e f).

(** The pattern [P] occurs in [s] at offset [i]. *)
Definition occurs_at (P : list ascii -> date_tuple -> Prop) (i : nat)
    (s : list ascii) (t : date_tuple) : Prop := P (drop i s) t.

Definition occurs (P : list ascii -> date_tuple -> Prop)
    (s : list ascii) : Prop := exists i t, occurs_at P i s t.

(** The leftmost occurrence of [P] in [s] is at offset [i]. *)
Definition first_at (P : list ascii -> date_tuple -> Prop) (i : nat)
    (s : list ascii) (t : date_tuple) : Prop :=
  occurs_at P i s t /\ forall j t', (j < i)%nat -> ~ occurs_at P j s t'.

(** The offset of the claimed fallback rule: 0 on a Sunday, 1 on a Monday, up to 6 on a
    Saturday. *)
Definition claimed_days_since_sunday (today : datetime) : Z :=
  (weekday today + 1) mod 7.

(** [needle] occurs in [hay] as a run of consecutive characters. *)
Definition substring (needle hay : list ascii) : Prop :=
  exists pre post, hay = pre ++ needle ++ post.

(** The new name: the date, an underscore and the old name. *)
Definition new_name (t : date_tuple) (filename : list ascii) : list ascii :=
  format_date t ++ "_"%char :: filename.

(** The files of a batch processed one after the other from world [w]: the
    entry of each file and the world after the last. *)
Inductive batch_run (output_dir archive_dir : list ascii)
    : list (list ascii) -> world -> dict -> world -> Prop :=
  | batch_done w : batch_run output_dir archive_dir [] w [] w
  | batch_ok file_path rest w w1 w2 output_path results :
      process_excel_file file_path output_dir archive_dir w
      = (Ok output_path, w1) ->
      batch_run output_dir archive_dir rest w1 results w2 ->
      batch_run output_dir archive_dir (file_path :: rest) w
        ((file_path, Entry true (Some output_path) None) :: results) w2
  | batch_failed file_path rest w w1 w2 e results :
      process_excel_file file_path output_dir archive_dir w
      = (Raise e, w1) ->
      batch_run output_dir archive_dir rest w1 results w2 ->
      batch_run output_dir archive_dir (file_path :: rest) w
        ((file_path, Entry false None (Some (exn_msg e))) :: results) w2.

(** One of output path and error message is set, and the flag tells
    which. *)
Definition entry_ok (e : entry) : Prop :=
  ((is_Some (output e) /\ error e = None)
   \/ (output e = None /\ is_Some (error e)))
  /\ (status e = true <-> is_Some (output e)).

(** The two counts the script prints after a batch. *)
Definition processed_count (results : dict) : Z :=
  fold_right Z.add 0
    (map (fun _ => 1) (List.filter (fun kv => status kv.2) results)).

Definition failed_count (results : dict) : Z :=
  Z.of_nat (length results) - processed_count results.


(** The paths [process_excel_file] may write, remove or create. *)
Definition touched (excel_path output_dir archive_dir : list ascii)
    (now : datetime) (k : list ascii) : Prop :=
  k = excel_path \/ k = output_dir \/ k = archive_dir
  \/ k = join archive_dir (basename excel_path)
  \/ k = join (join archive_dir (basename excel_path))
           (basename (rstrip_sep excel_path))
  \/ exists t,
       extract_date_from_filename now (basename excel_path) = Ok t
       /\ k = join output_dir
                (format_date t ++ "_"%char :: basename excel_path).

(** A computation that keeps the clock and changes no node outside the
    paths [T] names, whether it returns or raises. *)
Definition frames {A : Type} (T : datetime -> list ascii -> Prop)
    (m : M A) : Prop :=
  forall w r w', m w = (r, w') ->
    clock w' = clock w
    /\ forall k, ~ T (clock w) k -> nodes w' !! k = nodes w !! k.

(** ** Helpers of the proofs *)

(** Month and day of the [n]-th day (from 0) of a year, the last part of
    [_ord2ymd]. *)
Definition month_of_yday (leapyear : bool) (n : Z) : Z * Z :=
  let m := Z.shiftr (n + 50) 5 in
  let preceding :=
    table _DAYS_BEFORE_MONTH m + (if (2 <? m) && leapyear then 1 else 0) in
  if n <? preceding then
    let m := m - 1 in
    let preceding :=
      preceding
      - (table _DAYS_IN_MONTH m + (if (m =? 2) && leapyear then 1 else 0)) in
    (m, n - preceding + 1)
  else (m, n - preceding + 1).

Definition month_of_yday_check (leapyear : bool) (n : Z) : bool :=
  let '(m, d) := month_of_yday leapyear n in
  (1 <=? m) && (m <=? 12) && (1 <=? d)
  && (d <=? (if (m =? 2) && leapyear then 29 else table _DAYS_IN_MONTH m))
  && (table _DAYS_BEFORE_MONTH m + (if (2 <? m) && leapyear then 1 else 0) + d
      =? n + 1).

Ltac eqb_cases :=
  repeat match goal with
  | |- context [?a =? ?b] => destruct (Z.eqb_spec a b)
  | |- context [?a <? ?b] => destruct (Z.ltb_spec a b)
  | |- context [?a <=? ?b] => destruct (Z.leb_spec a b)
  end.

(** ** Worlds and names for examples *)

Definition test_name_dots : list ascii :=
  str "MULOplus_Circana Weekly Dollar and Unit Consumption Trends_L1 and CYTD Through WE 04.27.25.xlsx".

Definition test_name_no_dots : list ascii :=
  str "MULOplus_Circana Weekly Dollar and Unit Consumption Trends_L1 and CYTD Through WE 042025.xlsx".

Definition test_name_fallback : list ascii :=
  str "MULOplus_Circana Weekly Dollar and Unit Consumption.xlsx".

Definition hidden_book : content :=
  Workbook [Worksheet (str "Data") hidden; Worksheet (str "Notes") veryHidden].

Definition visible_book : content :=
  Workbook [Worksheet (str "Data") visible; Worksheet (str "Notes") visible].

(** One workbook in a directory of its own. *)
Definition one_file_world : world :=
  World {[ str "tmp/test.xlsx" := File hidden_book ]} (Date 2024 5 15).



(** That directory holds an entry of the same name as well. *)
Definition move_fails_world : world :=
  World {[ str "in/test.xlsx" := File hidden_book;
           str "archived_data/test.xlsx" := Directory;
           str "archived_data/test.xlsx/test.xlsx" := File (Other (str "old")) ]}
    (Date 2024 5 15).

(** A workbook, a file that is no workbook, and files whose names hold the
    two texts. *)
Definition batch_world : world :=
  World {[ str "data/test.xlsx" := File hidden_book;
           str "data/bad.xlsx" := File (Other (str "mock content"));
           str "data/archived_data_old.xlsx" := File hidden_book;
           str "data/my_modified_excel_workbooks.xls" := File hidden_book ]}
    (Date 2024 5 15).


(** ** Lemmas on the patterns *)

Section Search.
Context {G : Type} (here : list ascii -> option G).

Lemma re_search_first (s : list ascii) (i : nat) (g : G) :
  here (drop i s) = Some g ->
  (forall j, (j < i)%nat -> here (drop j s) = None) ->
  re_search here s = Some g.
Proof.
  revert s. induction i as [|i IH]; intros s Hi Hlt.
  - rewrite drop_0 in Hi. destruct s; simpl; rewrite Hi; reflexivity.
  - destruct s as [|c s].
    + simpl in Hi. specialize (Hlt 0%nat ltac:(lia)). simpl in Hlt.
      congruence.
    + pose proof (Hlt 0%nat ltac:(lia)) as H0. rewrite drop_0 in H0.
      simpl. rewrite H0. apply IH; [exact Hi|].
      intros j Hj. apply (Hlt (S j)). lia.
Qed.

Lemma re_search_none (s : list ascii) :
  (forall j, here (drop j s) = None) -> re_search here s = None.
Proof.
  induction s as [|c s IH]; intros H.
  - specialize (H 0%nat). rewrite drop_0 in H. simpl. rewrite H.
    reflexivity.
  - pose proof (H 0%nat) as H0. rewrite drop_0 in H0.
    simpl. rewrite H0. apply IH. intros j. apply (H (S j)).
Qed.

Lemma re_search_some (s : list ascii) (g : G) :
  re_search here s = Some g -> exists i, here (drop i s) = Some g.
Proof.
  induction s as [|c s IH]; simpl.
  - destruct (here []) eqn:E; [|discriminate].
    intros [= <-]. exists 0%nat. exact E.
  - destruct (here (c :: s)) eqn:E.
    + intros [= <-]. exists 0%nat. exact E.
    + intros H. destruct (IH H) as [i Hi]. exists (S i). exact Hi.
Qed.
End Search.

Lemma py_int_two (a b : ascii) :
  is_digit a = true -> is_digit b = true ->
  py_int [a; b] = Ok (two_digits a b).
Proof.
  intros Ha Hb. unfold py_int, two_digits. simpl. rewrite Ha, Hb. simpl.
  f_equal.
Qed.

Lemma int_groups_digits (a b c d e f : ascii) :
  is_digit a = true -> is_digit b = true -> is_digit c = true ->
  is_digit d = true -> is_digit e = true -> is_digit f = true ->
  int_groups ([a; b], [c; d], [e; f])
  = Ok (two_digits a b, two_digits c d, two_digits e f).
Proof.
  intros. unfold int_groups. rewrite !py_int_two by assumption. reflexivity.
Qed.

Lemma dot_pattern_dotted (s : list ascii) (t : date_tuple) :
  dotted_date s t ->
  exists g, dot_pattern s = Some g /\ int_groups g = Ok t.
Proof.
  intros [a b c d e f rest Ha Hb Hc Hd He Hf].
  exists ([a; b], [c; d], [e; f]). split.
  - unfold dot_pattern. rewrite Ha, Hb, Hc, Hd, He, Hf.
    rewrite !bool_decide_eq_true_2 by reflexivity. reflexivity.
  - apply int_groups_digits; assumption.
Qed.

Lemma dot_pattern_some (s : list ascii) (g : groups) :
  dot_pattern s = Some g -> exists t, dotted_date s t /\ int_groups g = Ok t.
Proof.
  unfold dot_pattern.
  destruct s as [|a [|b [|p [|c [|d [|q [|e [|f rest]]]]]]]]; try discriminate.
  destruct (is_digit a) eqn:Ha; [|discriminate].
  destruct (is_digit b) eqn:Hb; [|discriminate].
  destruct (bool_decide (p = "."%char)) eqn:Hp; [|discriminate].
  destruct (is_digit c) eqn:Hc; [|discriminate].
  destruct (is_digit d) eqn:Hd; [|discriminate].
  destruct (bool_decide (q = "."%char)) eqn:Hq; [|discriminate].
  destruct (is_digit e) eqn:He; [|discriminate].
  destruct (is_digit f) eqn:Hf; [|discriminate].
  simpl. intros [= <-].
  apply bool_decide_eq_true_1 in Hp, Hq. subst p q.
  eexists. split; [constructor; assumption|].
  apply int_groups_digits; assumption.
Qed.

Lemma dot_pattern_none (s : list ascii) :
  (forall t, ~ dotted_date s t) -> dot_pattern s = None.
Proof.
  intros H. destruct (dot_pattern s) as [g|] eqn:E; [|reflexivity].
  destruct (dot_pattern_some _ _ E) as (t & Ht & _). destruct (H t Ht).
Qed.

Lemma is_space_not_digit (c : ascii) :
  is_space c = true -> is_digit c = false.
Proof.
  unfold is_space, is_digit. intros H.
  destruct (48 <=? code c) eqn:E1; [|reflexivity].
  destruct (code c <=? 57) eqn:E2; [|reflexivity].
  apply Z.leb_le in E1, E2.
  rewrite !orb_true_iff, !andb_true_iff in H. lia.
Qed.

Lemma six_digits_intro (a b c d e f : ascii) (rest : list ascii) :
  is_digit a = true -> is_digit b = true -> is_digit c = true ->
  is_digit d = true -> is_digit e = true -> is_digit f = true ->
  six_digits (a :: b :: c :: d :: e :: f :: rest)
  = Some ([a; b], [c; d], [e; f]).
Proof. intros H1 H2 H3 H4 H5 H6. simpl. rewrite H1, H2, H3, H4, H5, H6. reflexivity. Qed.

Lemma six_digits_space (c : ascii) (s : list ascii) :
  is_space c = true -> six_digits (c :: s) = None.
Proof.
  intros H. apply is_space_not_digit in H. unfold six_digits.
  destruct s as [|b [|c' [|d [|e [|f rest]]]]]; try reflexivity.
  rewrite H. reflexivity.
Qed.

Lemma spaces_then_cons {G : Type} (rest : list ascii -> option G)
    (c : ascii) (s : list ascii) :
  spaces_then rest (c :: s)
  = if is_space c then
      match spaces_then rest s with
      | Some g => Some g
      | None => rest s
      end
    else None.
Proof. reflexivity. Qed.

(** After a run of white space the greedy match and the match that gives
    characters back agree: the six digits start where the run ends. *)
Lemma spaces_then_run (ws s : list ascii) (c : ascii) :
  forallb is_space ws = true -> is_space c = true ->
  is_digit (hd c s) = true -> s <> [] ->
  spaces_then six_digits (c :: ws ++ s) = six_digits s.
Proof.
  revert c. induction ws as [|w ws IH]; intros c Hws Hc Hd Hs.
  - destruct s as [|x s]; [congruence|].
    simpl in Hd. simpl app. rewrite !spaces_then_cons, Hc.
    assert (is_space x = false) as ->.
    { destruct (is_space x) eqn:E; [|reflexivity].
      apply is_space_not_digit in E. congruence. }
    reflexivity.
  - simpl in Hws. apply andb_true_iff in Hws as [Hw Hws].
    change (c :: (w :: ws) ++ s) with (c :: w :: ws ++ s).
    rewrite spaces_then_cons, Hc.
    assert (is_digit (hd w s) = true) as Hd'.
    { destruct s; [congruence|exact Hd]. }
    rewrite (IH w Hws Hw Hd' Hs).
    destruct (six_digits s) eqn:E; [reflexivity|].
    apply six_digits_space. exact Hw.
Qed.

Lemma no_dot_pattern_we (s : list ascii) (t : date_tuple) :
  we_date s t ->
  exists g, no_dot_pattern s = Some g /\ int_groups g = Ok t.
Proof.
  intros [ws a b c d e f rest Hne Hws Ha Hb Hc Hd He Hf].
  exists ([a; b], [c; d], [e; f]). split.
  - destruct ws as [|w ws]; [congruence|].
    simpl in Hws. apply andb_true_iff in Hws as [Hw Hws].
    unfold no_dot_pattern.
    change ((w :: ws) ++ a :: b :: c :: d :: e :: f :: rest)
      with (w :: ws ++ a :: b :: c :: d :: e :: f :: rest).
    rewrite spaces_then_run; [|assumption..|discriminate].
    apply six_digits_intro; assumption.
  - apply int_groups_digits; assumption.
Qed.

Lemma six_digits_some (s : list ascii) (g : groups) :
  six_digits s = Some g ->
  exists a b c d e f rest,
    s = a :: b :: c :: d :: e :: f :: rest /\ g = ([a; b], [c; d], [e; f])
    /\ is_digit a = true /\ is_digit b = true /\ is_digit c = true
    /\ is_digit d = true /\ is_digit e = true /\ is_digit f = true.
Proof.
  unfold six_digits.
  destruct s as [|a [|b [|c [|d [|e [|f rest]]]]]]; try discriminate.
  destruct (is_digit a) eqn:Ha; [|discriminate].
  destruct (is_digit b) eqn:Hb; [|discriminate].
  destruct (is_digit c) eqn:Hc; [|discriminate].
  destruct (is_digit d) eqn:Hd; [|discriminate].
  destruct (is_digit e) eqn:He; [|discriminate].
  destruct (is_digit f) eqn:Hf; [|discriminate].
  simpl. intros [= <-]. by exists a, b, c, d, e, f, rest.
Qed.

Lemma spaces_then_some (s : list ascii) (g : groups) :
  spaces_then six_digits s = Some g ->
  exists ws s', s = ws ++ s' /\ ws <> [] /\ forallb is_space ws = true
    /\ six_digits s' = Some g.
Proof.
  induction s as [|c s IH]; simpl; [discriminate|].
  destruct (is_space c) eqn:Hc; [|discriminate].
  destruct (spaces_then six_digits s) as [g'|] eqn:E.
  - intros [= <-]. destruct (IH eq_refl) as (ws & s' & -> & _ & Hws & Hs').
    exists (c :: ws), s'. simpl. rewrite Hc, Hws. by repeat split.
  - intros H. exists [c], s. simpl. rewrite Hc. by repeat split.
Qed.

Lemma no_dot_pattern_some (s : list ascii) (g : groups) :
  no_dot_pattern s = Some g -> exists t, we_date s t /\ int_groups g = Ok t.
Proof.
  unfold no_dot_pattern.
  destruct s as [|w [|e0 s]]; try discriminate.
  - destruct w as [[] [] [] [] [] [] [] []]; discriminate.
  - destruct (decide (w = "W"%char)) as [->|Hw].
    2:{ destruct w as [[] [] [] [] [] [] [] []]; try discriminate; congruence. }
    destruct (decide (e0 = "E"%char)) as [->|He].
    2:{ destruct e0 as [[] [] [] [] [] [] [] []]; try discriminate; congruence. }
    intros H. apply spaces_then_some in H as (ws & s' & -> & Hne & Hws & H).
    apply six_digits_some in H
      as (a & b & c & d & e & f & rest & -> & -> & Ha & Hb & Hc & Hd & He & Hf).
    eexists. split; [by constructor|]. by apply int_groups_digits.
Qed.

Lemma no_dot_pattern_none (s : list ascii) :
  (forall t, ~ we_date s t) -> no_dot_pattern s = None.
Proof.
  intros H. destruct (no_dot_pattern s) as [g|] eqn:E; [|reflexivity].
  destruct (no_dot_pattern_some _ _ E) as (t & Ht & _). destruct (H t Ht).
Qed.

Lemma search_dot_first (s : list ascii) (i : nat) (t : date_tuple) :
  first_at dotted_date i s t ->
  exists g, re_search dot_pattern s = Some g /\ int_groups g = Ok t.
Proof.
  intros [Hi Hlt]. destruct (dot_pattern_dotted _ _ Hi) as (g & Hg & Ht).
  exists g. split; [|exact Ht].
  apply (re_search_first _ s i); [exact Hg|].
  intros j Hj. apply dot_pattern_none. intros t' Ht'. exact (Hlt j t' Hj Ht').
Qed.

Lemma search_dot_none (s : list ascii) :
  ~ occurs dotted_date s -> re_search dot_pattern s = None.
Proof.
  intros H. apply re_search_none. intros j. apply dot_pattern_none.
  intros t Ht. apply H. by exists j, t.
Qed.

Lemma search_we_first (s : list ascii) (i : nat) (t : date_tuple) :
  first_at we_date i s t ->
  exists g, re_search no_dot_pattern s = Some g /\ int_groups g = Ok t.
Proof.
  intros [Hi Hlt]. destruct (no_dot_pattern_we _ _ Hi) as (g & Hg & Ht).
  exists g. split; [|exact Ht].
  apply (re_search_first _ s i); [exact Hg|].
  intros j Hj. apply no_dot_pattern_none. intros t' Ht'.
  exact (Hlt j t' Hj Ht').
Qed.

Lemma search_we_none (s : list ascii) :
  ~ occurs we_date s -> re_search no_dot_pattern s = None.
Proof.
  intros H. apply re_search_none. intros j. apply no_dot_pattern_none.
  intros t Ht. apply H. by exists j, t.
Qed.

(** ** The dotted rule *)

(** C5: a file name whose leftmost dotted date reads (m, d, y) gets
    (m, d, 2000 + y), whatever m and d are and whatever else the name
    holds, a WE token included. *)
Theorem extract_date_dotted (now : datetime) (filename : list ascii)
    (i : nat) (m d y : Z) :
  first_at dotted_date i filename (m, d, y) ->
  extract_date_from_filename now filename = Ok (m, d, 2000 + y).
Proof.
  intros H. destruct (search_dot_first _ _ _ H) as (g & Hg & Ht).
  unfold extract_date_from_filename. rewrite Hg, Ht. reflexivity.
Qed.

Lemma dotted_date_refute (s : list ascii) (t : date_tuple) :
  dot_pattern s = None -> ~ dotted_date s t.
Proof.
  intros E H. destruct (dot_pattern_dotted _ _ H) as (g & Hg & _). congruence.
Qed.

Lemma we_date_refute (s : list ascii) (t : date_tuple) :
  no_dot_pattern s = None -> ~ we_date s t.
Proof.
  intros E H. destruct (no_dot_pattern_we _ _ H) as (g & Hg & _). congruence.
Qed.

Lemma re_search_none_inv {G : Type} (here : list ascii -> option G)
    (s : list ascii) :
  re_search here s = None -> forall j, here (drop j s) = None.
Proof.
  induction s as [|c s IH]; simpl.
  - destruct (here []) eqn:E; [discriminate|]. intros _ j.
    rewrite drop_nil. exact E.
  - destruct (here (c :: s)) eqn:E; [discriminate|].
    intros H [|j]; [exact E|]. simpl. apply IH. exact H.
Qed.

Lemma not_occurs_dotted (s : list ascii) :
  re_search dot_pattern s = None -> ~ occurs dotted_date s.
Proof.
  intros E (j & t & H). apply (dotted_date_refute _ _ (re_search_none_inv _ _ E j) H).
Qed.

Lemma not_occurs_we (s : list ascii) :
  re_search no_dot_pattern s = None -> ~ occurs we_date s.
Proof.
  intros E (j & t & H). apply (we_date_refute _ _ (re_search_none_inv _ _ E j) H).
Qed.

(** The dotted rule on a name without a WE token and with month and day out
    of the calendar's range. *)
Lemma extract_date_dotted_witness :
  first_at dotted_date 7 (str "report_99.77.01.xls") (99, 77, 1)
  /\ extract_date_from_filename (Date 2024 5 15) (str "report_99.77.01.xls")
     = Ok (99, 77, 2001).
Proof.
  assert (first_at dotted_date 7 (str "report_99.77.01.xls") (99, 77, 1)) as H.
  { split.
    - exact (dotted_date_intro "9" "9" "7" "7" "0" "1" (str ".xls")
               eq_refl eq_refl eq_refl eq_refl eq_refl eq_refl).
    - intros j t' Hj.
      do 7 (destruct j as [|j]; [apply dotted_date_refute; reflexivity|]).
      lia. }
  split; [exact H|].
  exact (extract_date_dotted (Date 2024 5 15) _ 7 99 77 1 H).
Defined.

(** ** The WE rule *)

(** C1 as it is stated fails: a dotted date elsewhere in the name wins over
    the WE token, and of two WE tokens the left one is read. *)
Lemma extract_date_we_counterexample :
  (occurs_at we_date 0 (str "WE 042025 rev 01.02.03.xlsx") (4, 20, 25)
   /\ extract_date_from_filename (Date 2024 5 15)
        (str "WE 042025 rev 01.02.03.xlsx") = Ok (1, 2, 2003)
   /\ extract_date_from_filename (Date 2024 5 15)
        (str "WE 042025 rev 01.02.03.xlsx") <> Ok (4, 20, 2025))
  /\ (occurs_at we_date 10 (str "WE 010203 WE 042025.xlsx") (4, 20, 25)
      /\ extract_date_from_filename (Date 2024 5 15)
           (str "WE 010203 WE 042025.xlsx") = Ok (1, 2, 2003)
      /\ extract_date_from_filename (Date 2024 5 15)
           (str "WE 010203 WE 042025.xlsx") <> Ok (4, 20, 2025)).
Proof.
  split; (split; [|split; [reflexivity|discriminate]]).
  - exact (we_date_intro [" "%char] "0" "4" "2" "0" "2" "5"
             (str " rev 01.02.03.xlsx") ltac:(discriminate)
             eq_refl eq_refl eq_refl eq_refl eq_refl eq_refl eq_refl).
  - exact (we_date_intro [" "%char] "0" "4" "2" "0" "2" "5" (str ".xlsx")
             ltac:(discriminate)
             eq_refl eq_refl eq_refl eq_refl eq_refl eq_refl eq_refl).
Qed.

(** C1, amended: in a file name without a dotted date, whose leftmost WE
    token with white space and six digits reads the digits as (m, d, y) in
    2-2-2 order, the date is (m, d, 2000 + y). *)
Theorem extract_date_we (now : datetime) (filename : list ascii)
    (i : nat) (m d y : Z) :
  ~ occurs dotted_date filename ->
  first_at we_date i filename (m, d, y) ->
  extract_date_from_filename now filename = Ok (m, d, 2000 + y).
Proof.
  intros Hdot H. destruct (search_we_first _ _ _ H) as (g & Hg & Ht).
  unfold extract_date_from_filename.
  rewrite (search_dot_none _ Hdot), Hg, Ht. reflexivity.
Qed.

(** The test's file name: 042025 is read as month 4, day 20, year 2025. *)
Lemma extract_date_we_witness :
  extract_date_from_filename (Date 2024 5 15) test_name_no_dots
  = Ok (4, 20, 2025).
Proof.
  apply (extract_date_we (Date 2024 5 15) test_name_no_dots 79 4 20 25).
  - apply not_occurs_dotted. vm_compute. reflexivity.
  - split.
    + exact (we_date_intro [" "%char] "0" "4" "2" "0" "2" "5" (str ".xlsx")
               ltac:(discriminate)
               eq_refl eq_refl eq_refl eq_refl eq_refl eq_refl eq_refl).
    + intros j t' Hj.
      do 79 (destruct j as [|j]; [apply we_date_refute; reflexivity|]).
      lia.
Defined.

(** ** Lemmas on dates *)

Lemma month_of_yday_checked :
  forallb (fun k => month_of_yday_check true (Z.of_nat k)
                    && month_of_yday_check false (Z.of_nat k))
    (seq 0 365) = true.
Proof. vm_compute. reflexivity. Qed.

Lemma month_of_yday_ok (leapyear : bool) (n : Z) :
  0 <= n <= 364 ->
  1 <= (month_of_yday leapyear n).1 <= 12
  /\ 1 <= (month_of_yday leapyear n).2
  /\ (month_of_yday leapyear n).2
     <= (if ((month_of_yday leapyear n).1 =? 2) && leapyear then 29
         else table _DAYS_IN_MONTH (month_of_yday leapyear n).1)
  /\ table _DAYS_BEFORE_MONTH (month_of_yday leapyear n).1
     + (if (2 <? (month_of_yday leapyear n).1) && leapyear then 1 else 0)
     + (month_of_yday leapyear n).2 = n + 1.
Proof.
  intros Hn.
  assert (month_of_yday_check leapyear n = true) as Hc.
  { assert (In (Z.to_nat n) (seq 0 365)) as Hin by (apply in_seq; lia).
    apply (proj1 (forallb_forall _ _) month_of_yday_checked) in Hin.
    cbv beta in Hin. rewrite Z2Nat.id in Hin by lia.
    apply andb_true_iff in Hin as [H1 H2].
    destruct leapyear; assumption. }
  unfold month_of_yday_check in Hc.
  destruct (month_of_yday leapyear n) as [m d]. simpl.
  rewrite !andb_true_iff in Hc. destruct Hc as [[[[H1 H2] H3] H4] H5].
  apply Z.leb_le in H1, H2, H3, H4. apply Z.eqb_eq in H5. lia.
Qed.

Lemma ord2ymd_unfold (n : Z) :
  _ord2ymd n =
  let n0 := n - 1 in
  let n400 := n0 / 146097 in
  let r400 := n0 mod 146097 in
  let n100 := r400 / 36524 in
  let r100 := r400 mod 36524 in
  let n4 := r100 / 1461 in
  let r4 := r100 mod 1461 in
  let n1 := r4 / 365 in
  let r := r4 mod 365 in
  let y := n400 * 400 + 1 + n100 * 100 + n4 * 4 + n1 in
  if (n1 =? 4) || (n100 =? 4) then Date (y - 1) 12 31
  else
    let leapyear := (n1 =? 3) && (negb (n4 =? 24) || (n100 =? 3)) in
    Date y (month_of_yday leapyear r).1 (month_of_yday leapyear r).2.
Proof.
  unfold _ord2ymd, month_of_yday, _DI400Y, _DI100Y, _DI4Y. cbv zeta.
  repeat match goal with |- context [if ?b then _ else _] =>
    destruct b end; reflexivity.
Qed.

(** The year count of [_ord2ymd]: [a] cycles of 400 years, then [b]
    centuries, [c] groups of four years and [e] single years. *)
Lemma is_leap_cycles (a b c e : Z) :
  0 <= b <= 3 -> 0 <= c <= 24 -> 0 <= e <= 3 ->
  _is_leap (a * 400 + 1 + b * 100 + c * 4 + e)
  = (e =? 3) && (negb (c =? 24) || (b =? 3)).
Proof.
  intros Hb Hc He. unfold _is_leap.
  eqb_cases; simpl; try reflexivity; exfalso;
    Z.div_mod_to_equations; lia.
Qed.

Lemma days_before_year_cycles (a b c e : Z) :
  0 <= b <= 3 -> 0 <= c <= 24 -> 0 <= e <= 3 ->
  _days_before_year (a * 400 + 1 + b * 100 + c * 4 + e)
  = 146097 * a + 36524 * b + 1461 * c + 365 * e.
Proof.
  intros Hb Hc He. unfold _days_before_year. cbv zeta.
  Z.div_mod_to_equations. lia.
Qed.

Lemma ord_cycles (n : Z) :
  let n0 := n - 1 in
  let a := n0 / 146097 in
  let b := n0 mod 146097 / 36524 in
  let c := n0 mod 146097 mod 36524 / 1461 in
  let e := n0 mod 146097 mod 36524 mod 1461 / 365 in
  let r := n0 mod 146097 mod 36524 mod 1461 mod 365 in
  n0 = 146097 * a + 36524 * b + 1461 * c + 365 * e + r
  /\ 0 <= b <= 4 /\ 0 <= c <= 24 /\ 0 <= e <= 4 /\ 0 <= r <= 364
  /\ (b = 4 -> c = 0 /\ e = 0 /\ r = 0) /\ (e = 4 -> r = 0 /\ c <> 24).
Proof.
  cbv zeta. Z.div_mod_to_equations. lia.
Qed.

Lemma ord2ymd_spec (n : Z) :
  toordinal (_ord2ymd n) = n
  /\ 1 <= month (_ord2ymd n) <= 12
  /\ 1 <= day (_ord2ymd n)
          <= _days_in_month (year (_ord2ymd n)) (month (_ord2ymd n))
  /\ (1 <= n <= _MAXORDINAL -> 1 <= year (_ord2ymd n) <= 9999).
Proof.
  rewrite ord2ymd_unfold.
  pose proof (ord_cycles n) as H. cbv zeta in H |- *.
  set (a := (n - 1) / 146097) in *.
  set (b := (n - 1) mod 146097 / 36524) in *.
  set (c := (n - 1) mod 146097 mod 36524 / 1461) in *.
  set (e := (n - 1) mod 146097 mod 36524 mod 1461 / 365) in *.
  set (r := (n - 1) mod 146097 mod 36524 mod 1461 mod 365) in *.
  clearbody a b c e r.
  destruct H as (Hn & Hb & Hc & He & Hr & Hb4 & He4).
  destruct ((e =? 4) || (b =? 4)) eqn:Hsp.
  - (* the last day of a leap year *)
    assert (exists b' c', 0 <= b' <= 3 /\ 0 <= c' <= 24
              /\ ((c' =? 24) = false \/ (b' =? 3) = true)
              /\ a * 400 + 1 + b * 100 + c * 4 + e - 1
                 = a * 400 + 1 + b' * 100 + c' * 4 + 3
              /\ r = 0) as (b' & c' & Hb' & Hc' & Hleap & Hy & ->).
    { apply orb_true_iff in Hsp as [?%Z.eqb_eq|?%Z.eqb_eq].
      - assert (b <> 4) by lia. exists b, c.
        repeat split; lia.
      - exists 3, 24. repeat split; lia. }
    unfold toordinal, _ymd2ord, _days_before_month, _days_in_month. simpl.
    rewrite Hy.
    rewrite days_before_year_cycles, is_leap_cycles by lia.
    assert ((3 =? 3) && (negb (c' =? 24) || (b' =? 3)) = true) as ->.
    { destruct Hleap as [-> | ->]; simpl; [reflexivity|].
      by rewrite orb_true_r. }
    simpl. unfold table, _MAXORDINAL. simpl.
    repeat split; try lia.
  - apply orb_false_iff in Hsp as [He'%Z.eqb_neq Hb'%Z.eqb_neq].
    set (leapyear := (e =? 3) && (negb (c =? 24) || (b =? 3))).
    pose proof (month_of_yday_ok leapyear r Hr) as (Hm & Hd1 & Hd2 & Hsum).
    unfold toordinal, _ymd2ord, _days_before_month, _days_in_month. simpl.
    rewrite days_before_year_cycles, is_leap_cycles by lia.
    fold leapyear. unfold _MAXORDINAL. repeat split; lia.
Qed.

Lemma toordinal_ord2ymd (n : Z) : toordinal (_ord2ymd n) = n.
Proof. apply ord2ymd_spec. Qed.

Lemma valid_ord2ymd (n : Z) :
  1 <= n <= _MAXORDINAL -> valid_date (_ord2ymd n).
Proof.
  intros Hn. pose proof (ord2ymd_spec n) as (_ & Hm & Hd & Hy).
  unfold valid_date. auto.
Qed.

Lemma days_before_year_succ (y : Z) :
  _days_before_year (y + 1)
  = _days_before_year y + 365 + (if _is_leap y then 1 else 0).
Proof.
  unfold _days_before_year, _is_leap. cbv zeta.
  eqb_cases; simpl; Z.div_mod_to_equations; lia.
Qed.

Lemma days_before_year_range (y : Z) :
  1 <= y <= 9999 ->
  0 <= _days_before_year y /\ _days_before_year (y + 1) <= _MAXORDINAL.
Proof.
  unfold _days_before_year, _MAXORDINAL. cbv zeta. intros.
  Z.div_mod_to_equations. lia.
Qed.

Lemma day_of_year_range (y m d : Z) :
  1 <= m <= 12 -> 1 <= d <= _days_in_month y m ->
  1 <= _days_before_month y m + d <= 365 + (if _is_leap y then 1 else 0).
Proof.
  intros Hm. unfold _days_in_month, _days_before_month.
  assert (m = 1 \/ m = 2 \/ m = 3 \/ m = 4 \/ m = 5 \/ m = 6 \/ m = 7
          \/ m = 8 \/ m = 9 \/ m = 10 \/ m = 11 \/ m = 12) as Hcases by lia.
  destruct (_is_leap y);
    repeat (destruct Hcases as [->|Hcases]); try subst m;
    unfold table; simpl; lia.
Qed.

Lemma toordinal_range (d : datetime) :
  valid_date d -> 1 <= toordinal d <= _MAXORDINAL.
Proof.
  intros (Hy & Hm & Hd). unfold toordinal, _ymd2ord.
  pose proof (days_before_year_range _ Hy) as [H0 H1].
  pose proof (day_of_year_range _ _ _ Hm Hd) as H2.
  rewrite days_before_year_succ in H1. lia.
Qed.

(** ** The fallback rule *)

(** C2 as it is stated fails on a Sunday: 2024-05-12 is a Sunday, the claim
    subtracts 0 days and gives (5, 12, 2024), the code subtracts 7 and
    gives (5, 5, 2024). *)
Lemma extract_date_fallback_counterexample :
  weekday (Date 2024 5 12) = 6
  /\ re_search dot_pattern test_name_fallback = None
  /\ re_search no_dot_pattern test_name_fallback = None
  /\ sub_days (Date 2024 5 12) (claimed_days_since_sunday (Date 2024 5 12))
     = Ok (Date 2024 5 12)
  /\ extract_date_from_filename (Date 2024 5 12) test_name_fallback
     = Ok (5, 5, 2024)
  /\ extract_date_from_filename (Date 2024 5 12) test_name_fallback
     <> Ok (5, 12, 2024).
Proof. repeat split; try (vm_compute; reflexivity). discriminate. Qed.

(** C2, amended: for a file name with neither a dotted date nor a WE token
    and a clock reading later than the first week of year 1, the date is the
    last Sunday strictly before today: today's weekday number (Monday 0 to
    Sunday 6) plus one is subtracted, so 1 on a Monday, up to 6 on a
    Saturday and 7 on a Sunday. *)
Theorem extract_date_fallback (now : datetime) (filename : list ascii) :
  ~ occurs dotted_date filename ->
  ~ occurs we_date filename ->
  valid_date now ->
  7 < toordinal now ->
  exists sunday,
    extract_date_from_filename now filename
    = Ok (month sunday, day sunday, year sunday)
    /\ valid_date sunday
    /\ weekday sunday = 6
    /\ toordinal now - toordinal sunday = weekday now + 1
    /\ 0 <= weekday now <= 6.
Proof.
  intros Hdot Hwe Hvalid Hweek.
  pose proof (toordinal_range _ Hvalid) as Hrange.
  assert (0 <= weekday now <= 6) as Hwd
    by (unfold weekday; Z.div_mod_to_equations; lia).
  set (n := toordinal now - (weekday now + 1)).
  assert (1 <= n <= _MAXORDINAL) as Hn by (unfold n; lia).
  exists (_ord2ymd n).
  split; [|split; [|split; [|split]]].
  - unfold extract_date_from_filename.
    rewrite (search_dot_none _ Hdot), (search_we_none _ Hwe).
    unfold sub_days. fold n.
    assert ((0 <? n) && (n <=? _MAXORDINAL) = true) as ->.
    { apply andb_true_iff. split; [apply Z.ltb_lt|apply Z.leb_le]; lia. }
    reflexivity.
  - apply valid_ord2ymd. exact Hn.
  - unfold weekday in *. rewrite toordinal_ord2ymd. unfold n.
    Z.div_mod_to_equations. lia.
  - rewrite toordinal_ord2ymd. unfold n. lia.
  - exact Hwd.
Qed.

(** The test's clock: Wednesday 2024-05-15 gives Sunday 2024-05-12. *)
Lemma extract_date_fallback_witness :
  exists sunday,
    extract_date_from_filename (Date 2024 5 15) test_name_fallback
    = Ok (month sunday, day sunday, year sunday)
    /\ valid_date sunday
    /\ weekday sunday = 6
    /\ toordinal (Date 2024 5 15) - toordinal sunday
       = weekday (Date 2024 5 15) + 1
    /\ 0 <= weekday (Date 2024 5 15) <= 6.
Proof.
  apply (extract_date_fallback (Date 2024 5 15) test_name_fallback).
  - apply not_occurs_dotted. vm_compute. reflexivity.
  - apply not_occurs_we. vm_compute. reflexivity.
  - unfold valid_date. vm_compute. intuition discriminate.
  - vm_compute. reflexivity.
Defined.

(** ** Formatting *)

Lemma digits_fuel_acc (f : nat) (n : Z) (acc : list ascii) :
  digits_fuel f n acc = digits_fuel f n [] ++ acc.
Proof.
  revert n acc. induction f as [|f IH]; intros n acc; [reflexivity|].
  simpl. destruct (n / 10 =? 0); [reflexivity|].
  rewrite (IH _ (_ :: acc)), (IH _ [_]), <- app_assoc. reflexivity.
Qed.

Lemma digits_fuel_any (f1 f2 : nat) (n : Z) (acc : list ascii) :
  0 <= n < Z.of_nat f1 -> n < Z.of_nat f2 ->
  digits_fuel f1 n acc = digits_fuel f2 n [] ++ acc.
Proof.
  revert f2 n acc. induction f1 as [|f1 IH]; intros f2 n acc H1 H2; [lia|].
  destruct f2 as [|f2]; [lia|]. simpl.
  destruct (Z.eqb_spec (n / 10) 0) as [E|E]; [reflexivity|].
  assert (0 < n / 10 < n) as Hq by (Z.div_mod_to_equations; lia).
  rewrite (IH f2) by lia.
  rewrite (digits_fuel_acc f2 _ [_]), <- app_assoc. reflexivity.
Qed.

Lemma digits_small (n : Z) : 0 <= n < 10 -> digits n = [digit_char n].
Proof.
  intros H. unfold digits. simpl.
  rewrite Z.div_small, Z.mod_small by lia. reflexivity.
Qed.

Lemma digits_step (n : Z) :
  10 <= n -> digits n = digits (n / 10) ++ [digit_char (n mod 10)].
Proof.
  intros H. unfold digits at 1. simpl.
  assert (0 < n / 10 < n) as Hq by (Z.div_mod_to_equations; lia).
  destruct (Z.eqb_spec (n / 10) 0) as [E|E]; [lia|].
  unfold digits. apply digits_fuel_any; lia.
Qed.

Lemma format_02d_two (n : Z) :
  0 <= n <= 99 -> format_02d n = [digit_char (n / 10); digit_char (n mod 10)].
Proof.
  intros H. unfold format_02d.
  destruct (Z.ltb_spec n 0) as [?|_]; [lia|].
  destruct (Z.lt_ge_cases n 10) as [Hs|Hb].
  - rewrite digits_small, Z.div_small, Z.mod_small by lia. reflexivity.
  - rewrite digits_step by lia.
    rewrite digits_small by (Z.div_mod_to_equations; lia). reflexivity.
Qed.

Lemma py_str_int_four (y : Z) :
  1000 <= y <= 9999 ->
  py_str_int y = [digit_char (y / 1000); digit_char (y / 100 mod 10);
                  digit_char (y / 10 mod 10); digit_char (y mod 10)].
Proof.
  intros H. unfold py_str_int.
  destruct (Z.ltb_spec y 0) as [?|_]; [lia|].
  rewrite (digits_step y) by lia.
  rewrite (digits_step (y / 10)) by (Z.div_mod_to_equations; lia).
  rewrite (digits_step (y / 10 / 10)) by (Z.div_mod_to_equations; lia).
  rewrite digits_small by (Z.div_mod_to_equations; lia).
  rewrite !Z.div_div by lia. reflexivity.
Qed.

(** C6 as it is stated fails outside the usual ranges: the year field has
    no width, so a year below 1000 is not written with four digits, and a
    month of three digits or a negative one is not written with two. *)
Lemma format_date_counterexample :
  format_date (1, 1, 999) = str "01-01-999"
  /\ length (format_date (1, 1, 999)) <> length (str "MM-DD-YYYY")
  /\ format_date (100, 1, 2024) = str "100-01-2024"
  /\ format_date (4, 27, 12345) = str "04-27-12345".
Proof. repeat split; try (vm_compute; reflexivity). vm_compute. lia. Qed.

(** C6, amended: for a month and a day from 0 to 99 and a year from 1000 to
    9999 the text is MM-DD-YYYY: two digits, a dash, two digits, a dash and
    four digits, month and day padded with a zero each on its own. *)
Theorem format_date_shape (m d y : Z) :
  0 <= m <= 99 -> 0 <= d <= 99 -> 1000 <= y <= 9999 ->
  format_date (m, d, y)
  = [digit_char (m / 10); digit_char (m mod 10); "-"%char;
     digit_char (d / 10); digit_char (d mod 10); "-"%char;
     digit_char (y / 1000); digit_char (y / 100 mod 10);
     digit_char (y / 10 mod 10); digit_char (y mod 10)].
Proof.
  intros Hm Hd Hy. unfold format_date.
  rewrite !format_02d_two, py_str_int_four by assumption. reflexivity.
Qed.

(** The two dates of the claim. *)
Lemma format_date_shape_witness :
  format_date (4, 27, 2025) = str "04-27-2025"
  /\ format_date (1, 1, 2024) = str "01-01-2024".
Proof.
  split.
  - exact (format_date_shape 4 27 2025 ltac:(lia) ltac:(lia) ltac:(lia)).
  - exact (format_date_shape 1 1 2024 ltac:(lia) ltac:(lia) ltac:(lia)).
Defined.

(** ** Lemmas on strings and paths *)

Lemma startswith_spec (p s : list ascii) :
  startswith p s = true <-> exists rest, s = p ++ rest.
Proof.
  revert s. induction p as [|a p IH]; intros s; simpl.
  - split; [intros _; by exists s|done].
  - destruct s as [|b s].
    + split; [done|]. intros (rest & H). discriminate.
    + rewrite andb_true_iff, bool_decide_eq_true, IH. split.
      * intros (-> & rest & ->). by exists rest.
      * intros (rest & [= -> ->]). split; [done|]. by exists rest.
Qed.

Lemma py_in_spec (needle hay : list ascii) :
  py_in needle hay = true <-> substring needle hay.
Proof.
  induction hay as [|c hay IH].
  - simpl. rewrite orb_false_r, startswith_spec. split.
    + intros (rest & H). by exists [], rest.
    + intros (pre & post & H). destruct pre; [by exists post|discriminate].
  - simpl. rewrite orb_true_iff, IH, startswith_spec. split.
    + intros [(rest & ->)|(pre & post & ->)].
      * by exists [], rest.
      * by exists (c :: pre), post.
    + intros (pre & post & H). destruct pre as [|c' pre].
      * left. by exists post.
      * right. injection H as -> ->. by exists pre, post.
Qed.

Lemma substring_app_l (needle a b : list ascii) :
  substring needle a -> substring needle (a ++ b).
Proof.
  intros (pre & post & ->). exists pre, (post ++ b).
  by rewrite <- !app_assoc.
Qed.

Lemma substring_app_r (needle a b : list ascii) :
  substring needle b -> substring needle (a ++ b).
Proof.
  intros (pre & post & ->). exists (a ++ pre), post.
  by rewrite <- !app_assoc.
Qed.

Lemma basename_no_sep (p : list ascii) : existsb is_sep (basename p) = false.
Proof.
  induction p as [|c p IH]; [reflexivity|]. simpl.
  destruct (existsb is_sep p) eqn:E; [exact IH|].
  destruct (is_sep c) eqn:Ec; [exact E|]. simpl. by rewrite Ec, E.
Qed.

Lemma basename_id (b : list ascii) :
  existsb is_sep b = false -> basename b = b.
Proof.
  destruct b as [|c b]; [reflexivity|]. simpl.
  intros [Hc Hb]%orb_false_iff. by rewrite Hb, Hc.
Qed.

Lemma basename_app_sep (a b : list ascii) :
  existsb is_sep b = false -> basename (a ++ "/"%char :: b) = b.
Proof.
  intros Hb. induction a as [|c a IH]; simpl.
  - by rewrite Hb.
  - rewrite existsb_app. simpl. by rewrite orb_true_r.
Qed.

Lemma startswith_sep_no_sep (b : list ascii) :
  existsb is_sep b = false -> startswith_sep b = false.
Proof. destruct b as [|c b]; [done|]. simpl. by intros [? _]%orb_false_iff. Qed.

Lemma endswith_sep_inv (a : list ascii) :
  endswith_sep a = true -> exists a', a = a' ++ ["/"%char].
Proof.
  unfold endswith_sep. destruct (last a) as [c|] eqn:E; [|discriminate].
  intros Hc. apply bool_decide_eq_true in Hc. subst c.
  apply last_Some in E as (a' & ->). by exists a'.
Qed.

(** What [join] builds when the second part does not start at the root. *)
Lemma join_shape (a b : list ascii) :
  startswith_sep b = false ->
  (join a b = a ++ b /\ (a = [] \/ exists a', a = a' ++ ["/"%char]))
  \/ (join a b = a ++ "/"%char :: b).
Proof.
  intros Hb. unfold join. rewrite Hb.
  destruct (bool_decide (a = [])) eqn:Ea; simpl.
  - left. apply bool_decide_eq_true in Ea. auto.
  - destruct (endswith_sep a) eqn:Ee; [|by right].
    left. split; [done|]. right. by apply endswith_sep_inv.
Qed.

Lemma basename_join (a b : list ascii) :
  existsb is_sep b = false -> basename (join a b) = b.
Proof.
  intros Hb.
  destruct (join_shape a b (startswith_sep_no_sep _ Hb))
    as [(-> & [->|(a' & ->)])| ->].
  - by apply basename_id.
  - rewrite <- app_assoc. by apply basename_app_sep.
  - by apply basename_app_sep.
Qed.

Lemma join_substring (needle a b : list ascii) :
  startswith_sep b = false -> substring needle a ->
  substring needle (join a b).
Proof.
  intros Hb H. destruct (join_shape a b Hb) as [(-> & _)| ->];
    by apply substring_app_l.
Qed.




(** ** Discovery *)

Lemma entry_name_some (d k n : list ascii) :
  entry_name d k = Some n -> n = basename k /\ n <> [] /\ join d n = k.
Proof.
  unfold entry_name. case_bool_decide as H; [|discriminate].
  intros [= <-]. by destruct H.
Qed.

(** The paths [glob] returns are names of nodes, each once, in the order
    of the listing. *)
Lemma glob_entries_sublist (d : list ascii) (f : list ascii -> bool)
    (l : list (list ascii)) :
  map (join d) (List.filter f (omap (entry_name d) l)) `sublist_of` l.
Proof.
  induction l as [|k l IH]; [done|]. simpl.
  destruct (entry_name d k) as [n|] eqn:E; simpl.
  - apply entry_name_some in E as (_ & _ & Hk).
    destruct (f n); simpl.
    + rewrite Hk. by apply sublist_skip.
    + by apply sublist_cons.
  - by apply sublist_cons.
Qed.

Lemma NoDup_glob (w : world) (pattern : list ascii) : NoDup (glob w pattern).
Proof.
  unfold glob, listdir. destruct (split pattern) as [d pat].
  exact (sublist_NoDup _ _ (NoDup_fst_map_to_list (nodes w))
           (glob_entries_sublist d _ _)).
Qed.

Lemma elem_of_glob (w : world) (pattern p : list ascii) :
  p ∈ glob w pattern ->
  exists n, p = join (split pattern).1 n /\ n = basename p /\ n <> []
    /\ ishidden n = false /\ fnmatch n (split pattern).2 = true
    /\ is_Some (nodes w !! p).
Proof.
  unfold glob, listdir. destruct (split pattern) as [d pat]. simpl.
  rewrite list_elem_of_In, in_map_iff. intros (n & <- & Hn).
  apply filter_In in Hn as [Hn Hf].
  apply list_elem_of_In, list_elem_of_omap in Hn as (k & Hk & E).
  apply entry_name_some in E as (-> & Hne & Hj).
  apply andb_true_iff in Hf as [Hh Hf]. apply negb_true_iff in Hh.
  exists (basename k). rewrite Hj. repeat split; try done.
  apply list_elem_of_fmap in Hk as ([k' x] & -> & Hx).
  apply elem_of_map_to_list in Hx. simpl. by exists x.
Qed.



(** C7: no path that [find_excel_files] returns holds the text
    modified_excel_workbooks or the text archived_data anywhere, be it in
    the name of the file itself. *)
Theorem find_excel_files_excludes (directory : list ascii) (w w' : world)
    (files : list (list ascii)) (p : list ascii) :
  find_excel_files directory w = (Ok files, w') ->
  p ∈ files ->
  ~ substring (str "modified_excel_workbooks") p
  /\ ~ substring (str "archived_data") p.
Proof.
  unfold find_excel_files. intros [= <- <-] Hp.
  apply list_elem_of_In, filter_In in Hp as [_ Hp].
  apply andb_true_iff in Hp as [H1 H2].
  apply negb_true_iff in H1, H2.
  split; intros H%py_in_spec;
    [exact (eq_true_false_abs _ H H1)|exact (eq_true_false_abs _ H H2)].
Qed.


(** ** Lemmas on the file system *)

Lemma set_nodes_id (w : world) : set_nodes w (nodes w) = w.
Proof. by destruct w. Qed.

Lemma makedirs_ok (name : list ascii) (w w' : world) :
  makedirs name w = (Ok tt, w') ->
  w' = set_nodes w (<[name := Directory]> (nodes w))
  /\ (nodes w !! name = None \/ nodes w !! name = Some Directory).
Proof.
  unfold makedirs. destruct (nodes w !! name) as [[c|]|] eqn:E.
  - discriminate.
  - intros [= <-]. split; [|by right].
    by rewrite insert_id, set_nodes_id.
  - case_bool_decide; [discriminate|]. intros [= <-]. auto.
Qed.

(** A directory made on the way neither adds, removes nor changes a
    file. *)
Lemma makedirs_file (name k : list ascii) (w w' : world) (c : content) :
  makedirs name w = (Ok tt, w') ->
  nodes w' !! k = Some (File c) <-> nodes w !! k = Some (File c).
Proof.
  intros (-> & H)%makedirs_ok. simpl.
  destruct (decide (k = name)) as [->|Hne].
  - rewrite lookup_insert_eq. destruct H as [-> | ->]; split; discriminate.
  - by rewrite lookup_insert_ne.
Qed.


Lemma load_workbook_ok (path : list ascii) (w w' : world)
    (sheets : list worksheet) :
  load_workbook path w = (Ok sheets, w') ->
  w' = w /\ nodes w !! path = Some (File (Workbook sheets)).
Proof.
  unfold load_workbook.
  destruct (nodes w !! path) as [[[s|raw]|]|]; try discriminate.
  by intros [= <- <-].
Qed.

Lemma save_workbook_ok (wb : list worksheet) (path : list ascii)
    (w w' : world) :
  save_workbook wb path w = (Ok tt, w') ->
  w' = set_nodes w (<[path := File (Workbook wb)]> (nodes w)).
Proof.
  unfold save_workbook.
  destruct (nodes w !! path) as [[c|]|]; try discriminate;
    by intros [= <-].
Qed.


Lemma rename_raise (src dst : list ascii) (w w' : world) (e : exn) :
  rename src dst w = (Raise e, w') -> w' = w.
Proof.
  unfold rename. destruct (nodes w !! src) as [[c|]|];
    destruct (nodes w !! dst) as [[c'|]|]; try discriminate;
    by intros [= _ <-].
Qed.


Lemma bind_rename_raise (src dst : list ascii) (w w' : world)
    (r : list ascii) (e : exn) :
  bind (rename src dst) (fun _ => ret r) w = (Raise e, w') -> w' = w.
Proof.
  unfold bind, ret. destruct (rename src dst w) as [[[]|e'] w1] eqn:E;
    [discriminate|]. intros [= _ <-]. by apply rename_raise in E.
Qed.


(** A move that raises leaves every file where it was. *)
Lemma move_raise (src dst : list ascii) (w w' : world) (e : exn) :
  move src dst w = (Raise e, w') -> w' = w.
Proof.
  unfold move. destruct (isdir w dst).
  - case_bool_decide.
    + apply bind_rename_raise.
    + destruct (path_exists w _); [by intros [= _ <-]|].
      apply bind_rename_raise.
  - apply bind_rename_raise.
Qed.

(** ** Lemmas on the new name *)

Lemma digit_char_not_sep (d : Z) :
  0 <= d <= 9 -> is_sep (digit_char d) = false.
Proof.
  intros H.
  assert (d = 0 \/ d = 1 \/ d = 2 \/ d = 3 \/ d = 4 \/ d = 5 \/ d = 6
          \/ d = 7 \/ d = 8 \/ d = 9) as Hd by lia.
  repeat (destruct Hd as [->|Hd]); try subst d; reflexivity.
Qed.

Lemma digits_fuel_no_sep (f : nat) (n : Z) (acc : list ascii) :
  existsb is_sep acc = false ->
  existsb is_sep (digits_fuel f n acc) = false.
Proof.
  revert n acc. induction f as [|f IH]; intros n acc Hacc; [done|].
  simpl.
  assert (existsb is_sep (digit_char (n mod 10) :: acc) = false) as H.
  { simpl. rewrite Hacc, digit_char_not_sep; [done|].
    Z.div_mod_to_equations. lia. }
  destruct (n / 10 =? 0); [exact H|]. by apply IH.
Qed.

Lemma digits_no_sep (n : Z) : existsb is_sep (digits n) = false.
Proof. by apply digits_fuel_no_sep. Qed.

Lemma zero_pad_no_sep (k : nat) (s : list ascii) :
  existsb is_sep s = false -> existsb is_sep (zero_pad k s) = false.
Proof.
  intros Hs. unfold zero_pad. rewrite existsb_app, Hs, orb_false_r.
  induction (k - length s)%nat as [|j IH]; [done|]. simpl. exact IH.
Qed.

Lemma format_02d_no_sep (n : Z) : existsb is_sep (format_02d n) = false.
Proof.
  unfold format_02d. destruct (n <? 0); simpl;
    apply zero_pad_no_sep, digits_no_sep.
Qed.

Lemma py_str_int_no_sep (n : Z) : existsb is_sep (py_str_int n) = false.
Proof. unfold py_str_int. destruct (n <? 0); simpl; apply digits_no_sep. Qed.

Lemma format_date_no_sep (t : date_tuple) :
  existsb is_sep (format_date t) = false.
Proof.
  destruct t as [[m d] y]. unfold format_date.
  rewrite existsb_app, format_02d_no_sep. simpl.
  rewrite existsb_app, format_02d_no_sep. simpl.
  apply py_str_int_no_sep.
Qed.

Lemma new_name_no_sep (t : date_tuple) (p : list ascii) :
  existsb is_sep (new_name t (basename p)) = false.
Proof.
  unfold new_name. rewrite existsb_app, format_date_no_sep. simpl.
  apply basename_no_sep.
Qed.

Lemma new_name_neq (t : date_tuple) (filename : list ascii) :
  new_name t filename <> filename.
Proof.
  intros H. apply (f_equal length) in H. unfold new_name in H.
  rewrite length_app in H. simpl in H. lia.
Qed.

(** The output path is neither the source path nor the archive path. *)
Lemma output_path_fresh (t : date_tuple) (p od ad : list ascii) :
  join od (new_name t (basename p)) <> p
  /\ join od (new_name t (basename p)) <> join ad (basename p).
Proof.
  split; intros H; apply (f_equal basename) in H;
    rewrite basename_join in H by apply new_name_no_sep.
  - by apply new_name_neq in H.
  - rewrite basename_join in H by apply basename_no_sep.
    by apply new_name_neq in H.
Qed.

Lemma create_new_filename_ok (now : datetime) (filename nf : list ascii) :
  create_new_filename now filename = Ok nf ->
  exists t, extract_date_from_filename now filename = Ok t
    /\ nf = new_name t filename.
Proof.
  unfold create_new_filename.
  destruct (extract_date_from_filename now filename) as [t|e];
    [|discriminate].
  simpl. intros [= <-]. by exists t.
Qed.

Lemma join_nonempty (a b : list ascii) : b <> [] -> join a b <> [].
Proof.
  intros Hb. unfold join. destruct (startswith_sep b); [done|].
  destruct (bool_decide (a = []) || endswith_sep a);
    intros H; apply app_eq_nil in H as [_ H]; done.
Qed.

Lemma new_name_nonempty (t : date_tuple) (filename : list ascii) :
  new_name t filename <> [].
Proof. unfold new_name. intros H. apply app_eq_nil in H as [_ H]. done. Qed.

Lemma unhide_all_sheets_some (p out : list ascii) :
  out <> [] ->
  unhide_all_sheets p (Some out)
  = bind (load_workbook p) (fun wb => save_workbook (map make_visible wb) out).
Proof. intros H. unfold unhide_all_sheets. by destruct out. Qed.

Lemma unhide_all_sheets_ok (p out : list ascii) (w w' : world) :
  out <> [] ->
  unhide_all_sheets p (Some out) w = (Ok tt, w') ->
  exists sheets,
    nodes w !! p = Some (File (Workbook sheets))
    /\ w' = set_nodes w
              (<[out := File (Workbook (map make_visible sheets))]> (nodes w)).
Proof.
  intros Hout. rewrite unhide_all_sheets_some by done. unfold bind.
  destruct (load_workbook p w) as [[sheets|e] w1] eqn:El; [|discriminate].
  apply load_workbook_ok in El as [-> Hp].
  intros H%save_workbook_ok. by exists sheets.
Qed.

(** The steps of [process_excel_file] when it returns. *)
Lemma process_excel_file_ok_inv (p od ad out : list ascii) (w w' : world) :
  process_excel_file p od ad w = (Ok out, w') ->
  exists t sheets w1 w2 real,
    extract_date_from_filename (clock w) (basename p) = Ok t
    /\ out = join od (new_name t (basename p))
    /\ makedirs od w = (Ok tt, w1)
    /\ makedirs ad w1 = (Ok tt, w2)
    /\ nodes w2 !! p = Some (File (Workbook sheets))
    /\ move p (join ad (basename p))
         (set_nodes w2
            (<[out := File (Workbook (map make_visible sheets))]> (nodes w2)))
       = (Ok real, w').
Proof.
  unfold process_excel_file, get_output_path, get_archive_path.
  unfold bind at 1. unfold with_clock at 1.
  destruct (create_new_filename (clock w) (basename p)) as [nf|e] eqn:Enf;
    [|discriminate].
  apply create_new_filename_ok in Enf as (t & Ht & ->).
  unfold bind at 1. unfold bind at 1.
  destruct (makedirs od w) as [[[]|e] w1] eqn:E1; [|discriminate].
  unfold ret at 1. unfold bind at 1. unfold bind at 1.
  destruct (makedirs ad w1) as [[[]|e] w2] eqn:E2; [|discriminate].
  unfold ret at 1. unfold bind at 1.
  destruct (unhide_all_sheets p _ w2) as [[[]|e] w3] eqn:E3; [|discriminate].
  apply unhide_all_sheets_ok in E3 as (sheets & Hp & ->);
    [|apply join_nonempty, new_name_nonempty].
  unfold bind at 1.
  destruct (move p _ _) as [[real|e] w4] eqn:E4; [|discriminate].
  unfold ret. intros [= <- <-].
  by exists t, sheets, w1, w2, real.
Qed.

(** ** Processing one file *)



Lemma bind_ok {A B : Type} (m : M A) (k : A -> M B) (w w' : world) (a : A) :
  m w = (Ok a, w') -> bind m k w = k a w'.
Proof. unfold bind. by intros ->. Qed.

Lemma bind_raise {A B : Type} (m : M A) (k : A -> M B) (w w' : world)
    (e : exn) :
  m w = (Raise e, w') -> bind m k w = (Raise e, w').
Proof. unfold bind. by intros ->. Qed.

Lemma get_path_ok (filename dir path : list ascii) (w w' : world) :
  bind (makedirs dir) (fun _ => ret (join dir filename)) w = (Ok path, w') ->
  path = join dir filename /\ makedirs dir w = (Ok tt, w').
Proof.
  unfold bind, ret. destruct (makedirs dir w) as [[[]|e] w1]; [|discriminate].
  by intros [= <- <-].
Qed.

(** C10: the workbook is saved before the source is moved. When the steps up
    to the save succeed and the move raises, [process_excel_file] raises
    that exception in a world where the output path holds the workbook with
    every sheet visible and the source path still holds the workbook as it
    was. *)
Theorem process_excel_file_move_raises (excel_path output_dir archive_dir
    new_filename output_path archive_path : list ascii)
    (w w1 w2 w3 w4 : world) (e : exn) :
  create_new_filename (clock w) (basename excel_path) = Ok new_filename ->
  get_output_path new_filename output_dir w = (Ok output_path, w1) ->
  get_archive_path (basename excel_path) archive_dir w1
  = (Ok archive_path, w2) ->
  unhide_all_sheets excel_path (Some output_path) w2 = (Ok tt, w3) ->
  move excel_path archive_path w3 = (Raise e, w4) ->
  process_excel_file excel_path output_dir archive_dir w = (Raise e, w4)
  /\ w4 = w3
  /\ exists sheets,
       nodes w !! excel_path = Some (File (Workbook sheets))
       /\ nodes w4 !! excel_path = Some (File (Workbook sheets))
       /\ nodes w4 !! output_path
          = Some (File (Workbook (map make_visible sheets))).
Proof.
  intros Hname Hout Harch Hsave Hmove.
  split.
  { unfold process_excel_file.
    rewrite (bind_ok _ _ w w new_filename) by (unfold with_clock; by rewrite Hname).
    rewrite (bind_ok _ _ _ _ _ Hout), (bind_ok _ _ _ _ _ Harch).
    rewrite (bind_ok _ _ _ _ _ Hsave). by apply bind_raise. }
  apply move_raise in Hmove as ->. split; [done|].
  apply create_new_filename_ok in Hname as (t & _ & ->).
  apply get_path_ok in Hout as [-> E1]. apply get_path_ok in Harch as [-> E2].
  apply unhide_all_sheets_ok in Hsave as (sheets & Hp & ->);
    [|apply join_nonempty, new_name_nonempty].
  destruct (output_path_fresh t excel_path output_dir archive_dir)
    as [Hop _].
  exists sheets. simpl. repeat split.
  - by apply (makedirs_file _ _ _ _ _ E1), (makedirs_file _ _ _ _ _ E2).
  - by rewrite lookup_insert_ne.
  - by rewrite lookup_insert_eq.
Qed.

(** ** The batch *)

Lemma batch_run_keys (od ad : list ascii) (files : list (list ascii))
    (w w' : world) (results : dict) :
  batch_run od ad files w results w' -> results.*1 = files.
Proof. induction 1; [done|..]; rewrite fmap_cons; simpl; by f_equal. Qed.

Lemma batch_run_entries (od ad : list ascii) (files : list (list ascii))
    (w w' : world) (results : dict) :
  batch_run od ad files w results w' ->
  Forall (fun kv => entry_ok kv.2) results.
Proof.
  induction 1; constructor; try done; unfold entry_ok; simpl.
  - split; [left|]; by split.
  - split; [right; by split|]. split; [done|]. by intros [? ?].
Qed.

Lemma dict_set_fresh (d : dict) (k : list ascii) (v : entry) :
  k ∉ d.*1 -> dict_set d k v = d ++ [(k, v)].
Proof.
  induction d as [|[k' v'] d IH]; simpl; [done|].
  intros [Hne Hk]%not_elem_of_cons. case_bool_decide; [congruence|].
  by rewrite IH.
Qed.

Lemma dict_modify_last (d : dict) (k : list ascii) (v : entry)
    (f : entry -> entry) :
  k ∉ d.*1 -> dict_modify (d ++ [(k, v)]) k f = d ++ [(k, f v)].
Proof.
  induction d as [|[k' v'] d IH]; simpl.
  - intros _. by rewrite bool_decide_eq_true_2.
  - intros [Hne Hk]%not_elem_of_cons. case_bool_decide; [congruence|].
    by rewrite IH.
Qed.

(** The loop over the dictionary does what [batch_run] says, for files that
    are listed once each. *)
Lemma process_each_run (od ad : list ascii) (files : list (list ascii))
    (acc : dict) (w : world) :
  NoDup files -> (forall f, f ∈ files -> f ∉ acc.*1) ->
  exists results w',
    process_each od ad files acc w = (Ok (acc ++ results), w')
    /\ batch_run od ad files w results w'.
Proof.
  revert acc w. induction files as [|f files IH]; intros acc w Hnd Hacc.
  - exists [], w. rewrite app_nil_r. split; [done|constructor].
  - apply NoDup_cons in Hnd as [Hf Hnd].
    assert (f ∉ acc.*1) as Hfacc by (apply Hacc; by left).
    simpl. rewrite dict_set_fresh by done.
    assert (forall v, forall g, g ∈ files -> g ∉ (acc ++ [(f, v)]).*1) as Hacc'.
    { intros v g Hg. rewrite fmap_app, not_elem_of_app. split.
      - apply Hacc. by right.
      - simpl. rewrite list_elem_of_singleton. intros ->. done. }
    destruct (process_excel_file f od ad w) as [[out|e] w1] eqn:E.
    + rewrite !dict_modify_last by done.
      unfold set_output, set_status. cbn [status output error].
      destruct (IH (acc ++ [(f, Entry true (Some out) None)]) w1 Hnd
                  (Hacc' _)) as (r & w' & Hr & Hrun).
      exists ((f, Entry true (Some out) None) :: r), w'.
      rewrite Hr, <- app_assoc. split; [done|]. by eapply batch_ok.
    + rewrite !dict_modify_last by done.
      unfold set_error. cbn [status output error].
      destruct (IH (acc ++ [(f, Entry false None (Some (exn_msg e)))]) w1 Hnd
                  (Hacc' _)) as (r & w' & Hr & Hrun).
      exists ((f, Entry false None (Some (exn_msg e))) :: r), w'.
      rewrite Hr, <- app_assoc. split; [done|]. by eapply batch_failed.
Qed.

Lemma suffix_xlsx_xls (n : list ascii) :
  str ".xlsx" `suffix_of` n -> str ".xls" `suffix_of` n -> False.
Proof.
  intros [k1 ->] [k2 H].
  change (str ".xlsx") with (str ".xls" ++ ["x"%char]) in H.
  change (str ".xls") with (str ".xl" ++ ["s"%char]) in H at 2.
  rewrite !app_assoc in H. apply app_inj_tail in H as [_ H]. discriminate.
Qed.

(** What a pattern made of a star and an extension finds ends with the
    extension. *)
Lemma glob_ext_suffix (w : world) (directory ext p : list ascii) :
  existsb is_sep ext = false ->
  p ∈ glob w (join directory ("*"%char :: ext)) ->
  ext `suffix_of` basename p.
Proof.
  intros Hext Hp. apply elem_of_glob in Hp as (n & _ & <- & _ & _ & Hm & _).
  unfold split in Hm. simpl in Hm.
  rewrite basename_join in Hm.
  - simpl in Hm. by apply bool_decide_eq_true in Hm.
  - simpl. by rewrite Hext.
Qed.

Lemma NoDup_find_excel_files (directory : list ascii) (w w' : world)
    (files : list (list ascii)) :
  find_excel_files directory w = (Ok files, w') -> NoDup files /\ w' = w.
Proof.
  unfold find_excel_files. intros [= <- <-]. split; [|done].
  apply NoDup_ListNoDup, List.NoDup_filter, NoDup_ListNoDup.
  simpl. rewrite app_nil_r.
  apply NoDup_app. split; [apply NoDup_glob|]. split; [|apply NoDup_glob].
  intros p H1 H2.
  apply (glob_ext_suffix w directory (str ".xlsx")) in H1; [|done].
  apply (glob_ext_suffix w directory (str ".xls")) in H2; [|done].
  exact (suffix_xlsx_xls _ H1 H2).
Qed.

(** The batch as a whole: it returns, and its dictionary is the run of the
    files found. *)
Lemma process_all_excel_files_run (directory od ad : list ascii) (w : world) :
  exists files results w',
    find_excel_files directory w = (Ok files, w)
    /\ process_all_excel_files directory od ad w = (Ok results, w')
    /\ batch_run od ad files w results w'.
Proof.
  destruct (find_excel_files directory w) as [[files|e] w1] eqn:E;
    [|discriminate].
  destruct (NoDup_find_excel_files _ _ _ _ E) as [Hnd ->].
  destruct (process_each_run od ad files [] w Hnd) as (r & w' & Hr & Hrun).
  { intros f _. simpl. apply not_elem_of_nil. }
  exists files, r, w'. split; [done|]. split; [|done].
  unfold process_all_excel_files. by rewrite (bind_ok _ _ _ _ _ E).
Qed.


(** C8: in the dictionary the batch returns every entry has either an
    output path and no error message or an error message and no output
    path, and its flag is true exactly when it has an output path. *)
Theorem process_all_excel_files_entries (directory output_dir archive_dir
    file_path : list ascii) (w w' : world) (results : dict) (e : entry) :
  process_all_excel_files directory output_dir archive_dir w
  = (Ok results, w') ->
  (file_path, e) ∈ results ->
  ((is_Some (output e) /\ error e = None)
   \/ (output e = None /\ is_Some (error e)))
  /\ (status e = true <-> is_Some (output e)).
Proof.
  intros Hp Hin.
  destruct (process_all_excel_files_run directory output_dir archive_dir w)
    as (files & results' & w'' & _ & Hp' & Hrun).
  rewrite Hp in Hp'. injection Hp' as <- <-.
  apply batch_run_entries in Hrun.
  rewrite Forall_forall in Hrun. exact (Hrun _ Hin).
Qed.

(** ** The claims on concrete worlds *)


(** The move raises: the archive path is a directory that holds an entry of
    the same name. The output file is new and the source is still there. *)
Lemma process_excel_file_move_raises_witness :
  let excel_path := str "in/test.xlsx" in
  let output_dir := str "modified_excel_workbooks" in
  let archive_dir := str "archived_data" in
  let new_filename := str "05-12-2024_test.xlsx" in
  let output_path := str "modified_excel_workbooks/05-12-2024_test.xlsx" in
  let archive_path := str "archived_data/test.xlsx" in
  let w := move_fails_world in
  let w1 := (get_output_path new_filename output_dir w).2 in
  let w2 := (get_archive_path (basename excel_path) archive_dir w1).2 in
  let w3 := (unhide_all_sheets excel_path (Some output_path) w2).2 in
  let e :=
    Exn ShutilError
      (str "Destination path 'archived_data/test.xlsx/test.xlsx' already exists")
  in
  (nodes w !! output_path = None
   /\ nodes w3 !! output_path = Some (File visible_book)
   /\ nodes w3 !! excel_path = Some (File hidden_book))
  /\ process_excel_file excel_path output_dir archive_dir w = (Raise e, w3)
  /\ w3 = w3
  /\ exists sheets,
       nodes w !! excel_path = Some (File (Workbook sheets))
       /\ nodes w3 !! excel_path = Some (File (Workbook sheets))
       /\ nodes w3 !! output_path
          = Some (File (Workbook (map make_visible sheets))).
Proof.
  intros. split; [vm_compute; auto|].
  apply (process_excel_file_move_raises excel_path output_dir archive_dir
           new_filename output_path archive_path w w1 w2 w3 w3 e);
    vm_compute; reflexivity.
Defined.

(** Two files hold the texts in their names and are left out. *)
Lemma find_excel_files_excludes_witness :
  find_excel_files (str "data") batch_world
  = (Ok [str "data/test.xlsx"; str "data/bad.xlsx"], batch_world)
  /\ ~ substring (str "modified_excel_workbooks") (str "data/bad.xlsx")
  /\ ~ substring (str "archived_data") (str "data/bad.xlsx").
Proof.
  assert (find_excel_files (str "data") batch_world
          = (Ok [str "data/test.xlsx"; str "data/bad.xlsx"], batch_world))
    as H by (vm_compute; reflexivity).
  split; [exact H|].
  apply (find_excel_files_excludes (str "data") batch_world batch_world
           [str "data/test.xlsx"; str "data/bad.xlsx"] (str "data/bad.xlsx") H).
  repeat constructor.
Defined.


(** A batch of one workbook and one file that is no workbook: one entry
    with an output path, one with an error message. *)
Lemma process_all_excel_files_entries_witness :
  let run := process_all_excel_files (str "data")
               (str "modified_excel_workbooks") (str "archived_data")
               batch_world in
  let results :=
    [(str "data/test.xlsx",
      Entry true (Some (str "modified_excel_workbooks/05-12-2024_test.xlsx"))
        None);
     (str "data/bad.xlsx",
      Entry false None (Some (str "File is not a zip file")))] in
  run.1 = Ok results
  /\ nodes run.2 !! str "modified_excel_workbooks/05-12-2024_test.xlsx"
     = Some (File visible_book)
  /\ ((is_Some (@None (list ascii))
       /\ Some (str "File is not a zip file") = None)
      \/ (@None (list ascii) = None
          /\ is_Some (Some (str "File is not a zip file"))))
  /\ (false = true <-> is_Some (@None (list ascii))).
Proof.
  intros. split; [vm_compute; reflexivity|].
  split; [vm_compute; reflexivity|].
  apply (process_all_excel_files_entries (str "data")
           (str "modified_excel_workbooks") (str "archived_data")
           (str "data/bad.xlsx") batch_world run.2 results
           (Entry false None (Some (str "File is not a zip file")))).
  - vm_compute. reflexivity.
  - repeat constructor.
Defined.

(** * Further properties of the code *)

(** ** The date of any name *)

Lemma digit_value_range (c : ascii) :
  is_digit c = true -> 0 <= digit_value c <= 9.
Proof.
  unfold is_digit, digit_value. intros [H1 H2]%andb_true_iff.
  apply Z.leb_le in H1, H2. lia.
Qed.

Lemma two_digits_range (a b : ascii) :
  is_digit a = true -> is_digit b = true -> 0 <= two_digits a b <= 99.
Proof.
  intros Ha%digit_value_range Hb%digit_value_range. unfold two_digits. lia.
Qed.

Lemma dotted_date_range (s : list ascii) (m d y : Z) :
  dotted_date s (m, d, y) -> 0 <= m <= 99 /\ 0 <= d <= 99 /\ 0 <= y <= 99.
Proof.
  inversion 1; subst. repeat split; by apply two_digits_range.
Qed.

Lemma we_date_range (s : list ascii) (m d y : Z) :
  we_date s (m, d, y) -> 0 <= m <= 99 /\ 0 <= d <= 99 /\ 0 <= y <= 99.
Proof.
  inversion 1; subst. repeat split; by apply two_digits_range.
Qed.

(** What [extract_date_from_filename] does with the groups of a match. *)
Lemma extract_date_dot_match (now : datetime) (filename : list ascii)
    (g : groups) :
  re_search dot_pattern filename = Some g ->
  exists m d y,
    extract_date_from_filename now filename = Ok (m, d, 2000 + y)
    /\ 0 <= m <= 99 /\ 0 <= d <= 99 /\ 0 <= y <= 99.
Proof.
  intros Hg. destruct (re_search_some _ _ _ Hg) as (i & Hi).
  apply dot_pattern_some in Hi as ([[m d] y] & Ht & Hint).
  exists m, d, y. split; [|by eapply dotted_date_range].
  unfold extract_date_from_filename. by rewrite Hg, Hint.
Qed.

Lemma extract_date_we_match (now : datetime) (filename : list ascii)
    (g : groups) :
  re_search dot_pattern filename = None ->
  re_search no_dot_pattern filename = Some g ->
  exists m d y,
    extract_date_from_filename now filename = Ok (m, d, 2000 + y)
    /\ 0 <= m <= 99 /\ 0 <= d <= 99 /\ 0 <= y <= 99.
Proof.
  intros Hdot Hg. destruct (re_search_some _ _ _ Hg) as (i & Hi).
  apply no_dot_pattern_some in Hi as ([[m d] y] & Ht & Hint).
  exists m, d, y. split; [|by eapply we_date_range].
  unfold extract_date_from_filename. by rewrite Hdot, Hg, Hint.
Qed.

Lemma days_in_month_le (y m : Z) : 1 <= m <= 12 -> _days_in_month y m <= 31.
Proof.
  intros Hm. unfold _days_in_month.
  assert (m = 1 \/ m = 2 \/ m = 3 \/ m = 4 \/ m = 5 \/ m = 6 \/ m = 7
          \/ m = 8 \/ m = 9 \/ m = 10 \/ m = 11 \/ m = 12) as Hcases by lia.
  destruct (_is_leap y);
    repeat (destruct Hcases as [->|Hcases]); try subst m;
    unfold table; simpl; lia.
Qed.

Lemma days_before_year_1000 (y : Z) :
  (1 <= y <= 999 -> _days_before_year (y + 1) <= 364877)
  /\ (1001 <= y -> 365242 <= _days_before_year y).
Proof.
  unfold _days_before_year. cbv zeta.
  split; intros; Z.div_mod_to_equations; lia.
Qed.

(** A valid date from day 364878 on is in year 1000 or later. *)
Lemma year_from_ordinal (d : datetime) :
  valid_date d -> 364877 < toordinal d -> 1000 <= year d.
Proof.
  intros Hv Hn. pose proof Hv as (Hy & Hm & Hd).
  destruct (Z.lt_ge_cases (year d) 1000) as [Hlt|]; [|done].
  pose proof (proj1 (days_before_year_1000 (year d))) as H1.
  pose proof (day_of_year_range _ _ _ Hm Hd) as H2.
  rewrite days_before_year_succ in H1.
  unfold toordinal, _ymd2ord in Hn. lia.
Qed.

Lemma weekday_range (d : datetime) : 0 <= weekday d <= 6.
Proof. unfold weekday. Z.div_mod_to_equations. lia. Qed.

Lemma extract_date_no_match (now : datetime) (filename : list ascii) :
  re_search dot_pattern filename = None ->
  re_search no_dot_pattern filename = None ->
  extract_date_from_filename now filename
  = rbind (sub_days now (weekday now + 1))
      (fun sunday => Ok (month sunday, day sunday, year sunday)).
Proof.
  intros Hdot Hwe. unfold extract_date_from_filename. by rewrite Hdot, Hwe.
Qed.

Lemma sub_days_ok (d : datetime) (k : Z) :
  1 <= toordinal d - k <= _MAXORDINAL ->
  sub_days d k = Ok (_ord2ymd (toordinal d - k)).
Proof.
  intros H. unfold sub_days.
  assert ((0 <? toordinal d - k) && (toordinal d - k <=? _MAXORDINAL) = true)
    as ->; [|done].
  apply andb_true_iff. split; [apply Z.ltb_lt|apply Z.leb_le]; lia.
Qed.

Lemma extract_date_in_range (now : datetime) (filename : list ascii) :
  valid_date now -> 1001 <= year now ->
  exists m d y,
    extract_date_from_filename now filename = Ok (m, d, y)
    /\ 0 <= m <= 99 /\ 0 <= d <= 99 /\ 1000 <= y <= 9999.
Proof.
  intros Hv Hy.
  destruct (re_search dot_pattern filename) as [g|] eqn:Hdot.
  { destruct (extract_date_dot_match now _ _ Hdot) as (m & d & y & H & ?).
    exists m, d, (2000 + y). split; [done|]. lia. }
  destruct (re_search no_dot_pattern filename) as [g|] eqn:Hwe.
  { destruct (extract_date_we_match now _ _ Hdot Hwe) as (m & d & y & H & ?).
    exists m, d, (2000 + y). split; [done|]. lia. }
  rewrite extract_date_no_match by done.
  pose proof (toordinal_range _ Hv) as Hr.
  pose proof (weekday_range now) as Hw.
  assert (365242 < toordinal now) as Hlow.
  { pose proof (proj2 (days_before_year_1000 (year now)) Hy).
    destruct Hv as (_ & Hm & Hd).
    pose proof (day_of_year_range _ _ _ Hm Hd).
    unfold toordinal, _ymd2ord. lia. }
  rewrite sub_days_ok by lia. simpl.
  set (n := toordinal now - (weekday now + 1)).
  assert (1 <= n <= _MAXORDINAL) as Hn by (unfold n; lia).
  pose proof (valid_ord2ymd n Hn) as Hvs.
  pose proof Hvs as (Hys & Hms & Hds).
  pose proof (days_in_month_le (year (_ord2ymd n)) _ Hms).
  assert (1000 <= year (_ord2ymd n)).
  { apply year_from_ordinal; [done|]. rewrite toordinal_ord2ymd.
    unfold n. lia. }
  eexists _, _, _. split; [done|]. lia.
Qed.

(** X1: with the clock at a valid date of year 1001 or later, every file
    name has a date: the call returns a month and a day from 0 to 99 and a
    year of four digits. *)
Theorem extract_date_always_in_range (now : datetime) (filename : list ascii) :
  valid_date now -> 1001 <= year now ->
  exists m d y,
    extract_date_from_filename now filename = Ok (m, d, y)
    /\ 0 <= m <= 99 /\ 0 <= d <= 99 /\ 1000 <= y <= 9999.
Proof. apply extract_date_in_range. Qed.

Lemma extract_date_always_in_range_witness :
  exists m d y,
    extract_date_from_filename (Date 2024 5 15) test_name_fallback
    = Ok (m, d, y)
    /\ 0 <= m <= 99 /\ 0 <= d <= 99 /\ 1000 <= y <= 9999.
Proof.
  apply extract_date_always_in_range.
  - unfold valid_date. vm_compute. intuition discriminate.
  - simpl. lia.
Defined.

Lemma re_search_is_some {G : Type} (here : list ascii -> option G)
    (s : list ascii) (i : nat) (g : G) :
  here (drop i s) = Some g -> exists g', re_search here s = Some g'.
Proof.
  destruct (re_search here s) as [g'|] eqn:E; [by exists g'|].
  intros H. rewrite (re_search_none_inv _ _ E i) in H. discriminate.
Qed.

(** X2: the clock is read for the fallback only: a name that holds a
    dotted date or a WE token with its digits gets the same date whatever
    the clock says. *)
Theorem extract_date_ignores_clock (now1 now2 : datetime)
    (filename : list ascii) :
  occurs dotted_date filename \/ occurs we_date filename ->
  extract_date_from_filename now1 filename
  = extract_date_from_filename now2 filename.
Proof.
  intros H. unfold extract_date_from_filename.
  destruct (re_search dot_pattern filename) as [g|] eqn:Hdot; [done|].
  destruct (re_search no_dot_pattern filename) as [g|] eqn:Hwe; [done|].
  exfalso. destruct H as [H|H].
  - by apply (not_occurs_dotted _ Hdot).
  - by apply (not_occurs_we _ Hwe).
Qed.

Lemma extract_date_ignores_clock_witness :
  extract_date_from_filename (Date 2024 5 15) test_name_no_dots
  = extract_date_from_filename (Date 1999 12 31) test_name_no_dots.
Proof.
  apply extract_date_ignores_clock. right.
  exists 79%nat, (4, 20, 25).
  exact (we_date_intro [" "%char] "0" "4" "2" "0" "2" "5" (str ".xlsx")
           ltac:(discriminate)
           eq_refl eq_refl eq_refl eq_refl eq_refl eq_refl eq_refl).
Defined.

(** X3: in the first week of year 1 the fallback has no Sunday to
    return: for a name with no date the call raises [OverflowError]. *)
Theorem extract_date_first_week_raises (now : datetime)
    (filename : list ascii) :
  ~ occurs dotted_date filename -> ~ occurs we_date filename ->
  1 <= toordinal now <= 7 ->
  exists msg,
    extract_date_from_filename now filename = Raise (Exn OverflowError msg).
Proof.
  intros Hdot Hwe Hn.
  rewrite extract_date_no_match by (by apply search_dot_none
                                    || by apply search_we_none).
  unfold sub_days.
  assert (toordinal now - (weekday now + 1) <= 0) as H0.
  { unfold weekday. Z.div_mod_to_equations. lia. }
  assert ((0 <? toordinal now - (weekday now + 1)) = false) as ->
    by (apply Z.ltb_ge; lia).
  simpl. eauto.
Qed.

Lemma extract_date_first_week_raises_witness :
  exists msg,
    extract_date_from_filename (Date 1 1 3) test_name_fallback
    = Raise (Exn OverflowError msg).
Proof.
  apply extract_date_first_week_raises.
  - apply not_occurs_dotted. vm_compute. reflexivity.
  - apply not_occurs_we. vm_compute. reflexivity.
  - vm_compute. intuition discriminate.
Defined.

Lemma six_digits_needs_digit (s : list ascii) :
  six_digits s <> None -> exists c s', s = c :: s' /\ is_digit c = true.
Proof.
  destruct (six_digits s) as [g|] eqn:E; [|done]. intros _.
  apply six_digits_some in E
    as (a & b & c & d & e & f & rest & -> & _ & Ha & _). eauto.
Qed.

(** X4: the WE rule needs white space between the token and the digits: a
    name without any white space character and without a dotted date gets
    the date of a name that holds nothing, the fallback. *)
Theorem extract_date_needs_space (now : datetime) (filename : list ascii) :
  forallb (fun c => negb (is_space c)) filename = true ->
  ~ occurs dotted_date filename ->
  extract_date_from_filename now filename
  = extract_date_from_filename now [].
Proof.
  intros Hsp Hdot.
  assert (~ occurs we_date filename) as Hwe.
  { intros (i & t & H). unfold occurs_at in H.
    inversion H as [ws a b c d e f rest Hne Hws _ _ _ _ _ _ Heq Ht].
    destruct ws as [|x ws]; [done|].
    simpl in Hws. apply andb_true_iff in Hws as [Hx _].
    assert (In x filename) as Hin.
    { rewrite <- (take_drop i filename), <- Heq. apply in_or_app. right.
      simpl. auto. }
    rewrite forallb_forall in Hsp. specialize (Hsp x Hin).
    rewrite Hx in Hsp. discriminate. }
  rewrite !extract_date_no_match; try done.
  - by apply search_dot_none.
  - by apply search_we_none.
Qed.

Lemma extract_date_needs_space_witness :
  extract_date_from_filename (Date 2024 5 15) (str "Trends_WE_042025.xlsx")
  = extract_date_from_filename (Date 2024 5 15) [].
Proof.
  apply extract_date_needs_space.
  - vm_compute. reflexivity.
  - apply not_occurs_dotted. vm_compute. reflexivity.
Defined.

(** ** The new name *)

Lemma code_digit_char (d : Z) : 0 <= d <= 9 -> code (digit_char d) = 48 + d.
Proof.
  intros H.
  assert (d = 0 \/ d = 1 \/ d = 2 \/ d = 3 \/ d = 4 \/ d = 5 \/ d = 6
          \/ d = 7 \/ d = 8 \/ d = 9) as Hd by lia.
  repeat (destruct Hd as [->|Hd]); try subst d; reflexivity.
Qed.

Lemma digit_char_inj (a b : Z) :
  0 <= a <= 9 -> 0 <= b <= 9 -> digit_char a = digit_char b -> a = b.
Proof.
  intros Ha Hb H. apply (f_equal code) in H.
  rewrite !code_digit_char in H by done. lia.
Qed.

Lemma format_02d_inj (a b : Z) :
  0 <= a <= 99 -> 0 <= b <= 99 -> format_02d a = format_02d b -> a = b.
Proof.
  intros Ha Hb. rewrite !format_02d_two by done. intros [= H1 H2].
  apply digit_char_inj in H1, H2; Z.div_mod_to_equations; lia.
Qed.

Lemma py_str_int_inj (a b : Z) :
  1000 <= a <= 9999 -> 1000 <= b <= 9999 ->
  py_str_int a = py_str_int b -> a = b.
Proof.
  intros Ha Hb. rewrite !py_str_int_four by done. intros [= H1 H2 H3 H4].
  apply digit_char_inj in H1, H2, H3, H4; Z.div_mod_to_equations; lia.
Qed.

(** X5: two dates in the usual ranges that are written the same are the
    same date: the prefix of a new name tells the date. *)
Theorem format_date_injective (m1 d1 y1 m2 d2 y2 : Z) :
  0 <= m1 <= 99 -> 0 <= d1 <= 99 -> 1000 <= y1 <= 9999 ->
  0 <= m2 <= 99 -> 0 <= d2 <= 99 -> 1000 <= y2 <= 9999 ->
  format_date (m1, d1, y1) = format_date (m2, d2, y2) ->
  (m1, d1, y1) = (m2, d2, y2).
Proof.
  intros Hm1 Hd1 Hy1 Hm2 Hd2 Hy2 H.
  assert (format_02d m1 = format_02d m2 /\ format_02d d1 = format_02d d2
          /\ py_str_int y1 = py_str_int y2) as (Em & Ed & Ey).
  { unfold format_date in H.
    rewrite !format_02d_two, !py_str_int_four in * by done.
    injection H as -> -> -> -> -> -> -> ->. done. }
  apply format_02d_inj in Em, Ed; try done.
  apply py_str_int_inj in Ey; try done. congruence.
Qed.

Lemma format_date_injective_witness :
  format_date (4, 27, 2025) = format_date (4, 27, 2000 + 25)
  /\ (4, 27, 2025) = (4, 27, 2000 + 25).
Proof.
  split; [reflexivity|].
  apply format_date_injective; try lia. reflexivity.
Defined.

(** X6: with the clock at a valid date of year 1001 or later the new name
    is a prefix of ten characters, an underscore and the old name, whatever
    the old name is; dropping eleven characters gives the old name back,
    and the new name holds a slash only where the old name does. *)
Theorem create_new_filename_recoverable (now : datetime)
    (original_filename : list ascii) :
  valid_date now -> 1001 <= year now ->
  exists prefix,
    create_new_filename now original_filename
    = Ok (prefix ++ "_"%char :: original_filename)
    /\ length prefix = 10%nat
    /\ existsb is_sep prefix = false
    /\ drop 11 (prefix ++ "_"%char :: original_filename) = original_filename.
Proof.
  intros Hv Hy.
  destruct (extract_date_in_range now original_filename Hv Hy)
    as (m & d & y & Ht & Hm & Hd & Hyr).
  exists (format_date (m, d, y)).
  assert (length (format_date (m, d, y)) = 10%nat) as Hlen.
  { unfold format_date. by rewrite !format_02d_two, py_str_int_four. }
  repeat split.
  - unfold create_new_filename. by rewrite Ht.
  - done.
  - apply format_date_no_sep.
  - rewrite drop_app_ge by lia. rewrite Hlen. done.
Qed.

Lemma create_new_filename_recoverable_witness :
  exists prefix,
    create_new_filename (Date 2024 5 15) test_name_dots
    = Ok (prefix ++ "_"%char :: test_name_dots)
    /\ length prefix = 10%nat
    /\ existsb is_sep prefix = false
    /\ drop 11 (prefix ++ "_"%char :: test_name_dots) = test_name_dots.
Proof.
  apply create_new_filename_recoverable.
  - unfold valid_date. vm_compute. intuition discriminate.
  - simpl. lia.
Defined.

(** X7: the output path is a new path: whatever the source path and the
    two directories are, the path the new name gets in the output directory
    is neither the source path nor the archive path, and its last component
    is the new name. *)
Theorem output_path_is_new (now : datetime)
    (excel_path output_dir archive_dir new_filename : list ascii) :
  create_new_filename now (basename excel_path) = Ok new_filename ->
  join output_dir new_filename <> excel_path
  /\ join output_dir new_filename <> join archive_dir (basename excel_path)
  /\ basename (join output_dir new_filename) = new_filename.
Proof.
  intros (t & _ & ->)%create_new_filename_ok.
  destruct (output_path_fresh t excel_path output_dir archive_dir) as [H1 H2].
  repeat split; try done.
  apply basename_join, new_name_no_sep.
Qed.

Lemma output_path_is_new_witness :
  join (str "in") (str "05-12-2024_test.xlsx") <> str "in/test.xlsx"
  /\ join (str "in") (str "05-12-2024_test.xlsx")
     <> join (str "in") (basename (str "in/test.xlsx"))
  /\ basename (join (str "in") (str "05-12-2024_test.xlsx"))
     = str "05-12-2024_test.xlsx".
Proof.
  apply (output_path_is_new (Date 2024 5 15) (str "in/test.xlsx")).
  vm_compute. reflexivity.
Defined.

(** ** Runs on concrete worlds *)

Lemma run_eq {A : Type} (r : result A * world) (a : A) :
  r.1 = Ok a -> r = (Ok a, r.2).
Proof. destruct r as [x w]. simpl. by intros ->. Qed.


(** ** What is found in a directory *)







(** X9: the list found has no path twice, and every path whose name ends
    with .xlsx comes before every path whose name ends with .xls. *)
Theorem find_excel_files_order (directory : list ascii) (w w' : world)
    (files : list (list ascii)) :
  find_excel_files directory w = (Ok files, w') ->
  NoDup files
  /\ exists xlsx xls,
       files = xlsx ++ xls
       /\ Forall (fun p => str ".xlsx" `suffix_of` basename p) xlsx
       /\ Forall (fun p => str ".xls" `suffix_of` basename p
                           /\ ~ str ".xlsx" `suffix_of` basename p) xls.
Proof.
  intros H. split; [by apply NoDup_find_excel_files in H as [? _]|].
  unfold find_excel_files in H. injection H as <- _.
  simpl. rewrite app_nil_r, List.filter_app.
  eexists _, _. split; [done|].
  split; apply Forall_forall; intros p Hp;
    apply list_elem_of_In, filter_In in Hp as [Hp _];
    apply list_elem_of_In in Hp.
  - by apply (glob_ext_suffix w directory (str ".xlsx")) in Hp.
  - apply (glob_ext_suffix w directory (str ".xls")) in Hp; [|done].
    split; [done|]. intros Hx. exact (suffix_xlsx_xls _ Hx Hp).
Qed.

Lemma find_excel_files_order_witness :
  NoDup [str "data/test.xlsx"; str "data/bad.xlsx"]
  /\ exists xlsx xls,
       [str "data/test.xlsx"; str "data/bad.xlsx"] = xlsx ++ xls
       /\ Forall (fun p => str ".xlsx" `suffix_of` basename p) xlsx
       /\ Forall (fun p => str ".xls" `suffix_of` basename p
                           /\ ~ str ".xlsx" `suffix_of` basename p) xls.
Proof.
  apply (find_excel_files_order (str "data") batch_world
           (find_excel_files (str "data") batch_world).2).
  apply run_eq. vm_compute. reflexivity.
Defined.

(** ** Directories, sheets and what a call leaves alone *)

Lemma frames_ret {A : Type} (T : datetime -> list ascii -> Prop) (a : A) :
  frames T (ret a).
Proof. intros w r w' [= <- <-]. done. Qed.

Lemma frames_bind {A B : Type} (T : datetime -> list ascii -> Prop)
    (m : M A) (k : A -> M B) :
  frames T m -> (forall a, frames T (k a)) -> frames T (bind m k).
Proof.
  intros Hm Hk w r w'. unfold bind.
  destruct (m w) as [[a|e] w1] eqn:E.
  - intros H. destruct (Hm _ _ _ E) as [Hc1 Hn1].
    destruct (Hk a _ _ _ H) as [Hc2 Hn2]. split; [congruence|].
    intros x Hx. rewrite Hn2 by by rewrite Hc1. by apply Hn1.
  - intros [= <- <-]. exact (Hm _ _ _ E).
Qed.

(** The same when the rest is run on the values the first part can
    return only. *)
Lemma frames_bind_val {A B : Type} (T : datetime -> list ascii -> Prop)
    (Q : A -> Prop) (m : M A) (k : A -> M B) :
  frames T m -> (forall w a w', m w = (Ok a, w') -> Q a) ->
  (forall a, Q a -> frames T (k a)) -> frames T (bind m k).
Proof.
  intros Hm HQ Hk w r w'. unfold bind.
  destruct (m w) as [[a|e] w1] eqn:E.
  - intros H. destruct (Hm _ _ _ E) as [Hc1 Hn1].
    destruct (Hk a (HQ _ _ _ E) _ _ _ H) as [Hc2 Hn2]. split; [congruence|].
    intros x Hx. rewrite Hn2 by by rewrite Hc1. by apply Hn1.
  - intros [= <- <-]. exact (Hm _ _ _ E).
Qed.

Lemma frames_weaken {A : Type} (T T' : datetime -> list ascii -> Prop)
    (m : M A) :
  (forall now k, T now k -> T' now k) -> frames T m -> frames T' m.
Proof.
  intros HT Hm w r w' H. destruct (Hm _ _ _ H) as [Hc Hn].
  split; [done|]. intros k Hk. apply Hn. intros HTk. apply Hk. by apply HT.
Qed.

Lemma frames_makedirs (name : list ascii) :
  frames (fun _ k => k = name) (makedirs name).
Proof.
  intros w r w'. unfold makedirs.
  destruct (nodes w !! name) as [[c|]|]; try by intros [= <- <-].
  case_bool_decide; intros [= <- <-]; [done|].
  split; [done|]. intros k Hk. simpl. by rewrite lookup_insert_ne.
Qed.

Lemma frames_load_workbook (path : list ascii) :
  frames (fun _ _ => False) (load_workbook path).
Proof.
  intros w r w'. unfold load_workbook.
  destruct (nodes w !! path) as [[[s|raw]|]|]; by intros [= <- <-].
Qed.

Lemma frames_save_workbook (wb : list worksheet) (path : list ascii) :
  frames (fun _ k => k = path) (save_workbook wb path).
Proof.
  intros w r w'. unfold save_workbook.
  destruct (nodes w !! path) as [[c|]|]; intros [= <- <-];
    try done; (split; [done|]); intros k Hk; simpl;
    by rewrite lookup_insert_ne.
Qed.

Lemma frames_rename (src dst : list ascii) :
  frames (fun _ k => k = src \/ k = dst) (rename src dst).
Proof.
  intros w r w'. unfold rename.
  destruct (nodes w !! src) as [n|]; [|by intros [= <- <-]].
  destruct n, (nodes w !! dst) as [[c'|]|]; intros [= <- <-];
    try done; (split; [done|]); intros k Hk; simpl;
    rewrite lookup_insert_ne, lookup_delete_ne by (intros ?; subst; tauto);
    done.
Qed.

Lemma frames_rename_to (src d : list ascii)
    (T : datetime -> list ascii -> Prop) :
  (forall now k, k = src \/ k = d -> T now k) ->
  frames T (bind (rename src d) (fun _ => ret d)).
Proof.
  intros HT. apply (frames_weaken (fun _ k => k = src \/ k = d)); [done|].
  apply frames_bind; [apply frames_rename|]. intros _. apply frames_ret.
Qed.

Lemma frames_move (src dst : list ascii) :
  frames (fun _ k => k = src \/ k = dst
                     \/ k = join dst (basename (rstrip_sep src)))
    (move src dst).
Proof.
  set (T := fun (_ : datetime) k =>
         k = src \/ k = dst \/ k = join dst (basename (rstrip_sep src))).
  intros w r w'. unfold move. destruct (isdir w dst).
  - case_bool_decide as Hsame.
    + apply (frames_rename_to src dst T). unfold T. tauto.
    + destruct (path_exists w _); [by intros [= <- <-]|].
      apply (frames_rename_to src _ T). unfold T. tauto.
  - apply (frames_rename_to src dst T). unfold T. tauto.
Qed.

Lemma frames_unhide_all_sheets (p : list ascii)
    (out : option (list ascii)) :
  frames (fun _ k => k = match out with
                         | Some (c :: q) => c :: q
                         | _ => p
                         end)
    (unhide_all_sheets p out).
Proof.
  unfold unhide_all_sheets. apply frames_bind.
  - apply (frames_weaken (fun _ _ => False)); [done|].
    apply frames_load_workbook.
  - intros wb. destruct out as [[|c q]|]; apply frames_save_workbook.
Qed.

Lemma frames_with_clock {A : Type} (f : datetime -> result A) :
  frames (fun _ _ => False) (with_clock f).
Proof. intros w r w' [= <- <-]. done. Qed.

Lemma frames_get_path (filename dir : list ascii) :
  frames (fun _ k => k = dir)
    (bind (makedirs dir) (fun _ => ret (join dir filename))).
Proof.
  apply frames_bind; [apply frames_makedirs|]. intros _. apply frames_ret.
Qed.

Lemma frames_process_excel_file (p od ad : list ascii) :
  frames (touched p od ad) (process_excel_file p od ad).
Proof.
  intros w r w' H.
  destruct (create_new_filename (clock w) (basename p)) as [nf|e] eqn:Enf.
  2:{ unfold process_excel_file in H.
      rewrite (bind_raise _ _ w w e) in H
        by (unfold with_clock; by rewrite Enf).
      by injection H as <- <-. }
  pose proof Enf as (t & Ht & Hnf)%create_new_filename_ok.
  unfold process_excel_file in H.
  rewrite (bind_ok _ _ w w nf) in H by (unfold with_clock; by rewrite Enf).
  set (T := fun (_ : datetime) k =>
         k = p \/ k = od \/ k = ad \/ k = join ad (basename p)
         \/ k = join (join ad (basename p)) (basename (rstrip_sep p))
         \/ k = join od nf).
  assert (frames T
            (do output_path <~ get_output_path nf od in
             do archive_path <~ get_archive_path (basename p) ad in
             do _ <~ unhide_all_sheets p (Some output_path) in
             do _ <~ move p archive_path in ret output_path)) as HT;
    [|destruct (HT _ _ _ H) as [Hc Hn]; split; [done|];
      intros k Hk; apply Hn; unfold T; unfold touched in Hk;
      intros HTk; apply Hk;
      destruct HTk as [?|[?|[?|[?|[?|?]]]]]; auto 10;
      do 5 right; exists t; split; [done|]; by subst nf].
  apply (frames_bind_val T (fun out => out = join od nf)).
  { apply (frames_weaken (fun _ k => k = od)); [unfold T; tauto|].
    apply frames_get_path. }
  { intros w0 a w0' H0. by apply get_path_ok in H0 as [-> _]. }
  intros out ->.
  apply (frames_bind_val T (fun ap => ap = join ad (basename p))).
  { apply (frames_weaken (fun _ k => k = ad)); [unfold T; tauto|].
    apply frames_get_path. }
  { intros w0 a w0' H0. by apply get_path_ok in H0 as [-> _]. }
  intros ap ->.
  apply frames_bind.
  { eapply frames_weaken; [|apply frames_unhide_all_sheets].
    intros ? k Hk. cbv beta in Hk. unfold T.
    destruct (join od nf) as [|c q] eqn:Ej; tauto. }
  intros _. apply frames_bind; [|intros; apply frames_ret].
  eapply frames_weaken; [|apply frames_move].
  intros ? k. unfold T. tauto.
Qed.


Lemma makedirs_again (name : list ascii) (w : world) :
  nodes w !! name = Some Directory -> makedirs name w = (Ok tt, w).
Proof. unfold makedirs. by intros ->. Qed.

Lemma makedirs_dir (name : list ascii) (w w' : world) :
  makedirs name w = (Ok tt, w') -> nodes w' !! name = Some Directory.
Proof. intros (-> & _)%makedirs_ok. simpl. by rewrite lookup_insert_eq. Qed.

(** X10: [get_output_path] and [get_archive_path] make the directory as
    they go: when either returns, it returns the directory joined with the
    name, the directory exists, no file was added, removed or changed, and
    calling it again returns the same path and changes nothing. *)
Theorem get_path_makes_directory (filename dir path : list ascii)
    (w w' : world) :
  get_output_path filename dir w = (Ok path, w')
  \/ get_archive_path filename dir w = (Ok path, w') ->
  path = join dir filename
  /\ isdir w' dir = true
  /\ (forall k c, nodes w' !! k = Some (File c) <-> nodes w !! k = Some (File c))
  /\ get_output_path filename dir w' = (Ok path, w')
  /\ get_archive_path filename dir w' = (Ok path, w').
Proof.
  intros H.
  assert (path = join dir filename /\ makedirs dir w = (Ok tt, w'))
    as [-> E] by (destruct H as [H|H]; by apply get_path_ok in H).
  pose proof (makedirs_dir _ _ _ E) as Hd.
  repeat split.
  - unfold isdir. by rewrite Hd.
  - by apply (makedirs_file _ _ _ _ _ E).
  - by apply (makedirs_file _ _ _ _ _ E).
  - unfold get_output_path.
    by rewrite (bind_ok _ _ _ _ _ (makedirs_again _ _ Hd)).
  - unfold get_archive_path.
    by rewrite (bind_ok _ _ _ _ _ (makedirs_again _ _ Hd)).
Qed.

Lemma get_path_makes_directory_witness :
  let w' := (get_output_path (str "04-27-2025_test.xlsx")
               (str "modified_excel_workbooks") one_file_world).2 in
  str "modified_excel_workbooks/04-27-2025_test.xlsx"
  = join (str "modified_excel_workbooks") (str "04-27-2025_test.xlsx")
  /\ isdir w' (str "modified_excel_workbooks") = true
  /\ (forall k c, nodes w' !! k = Some (File c)
                  <-> nodes one_file_world !! k = Some (File c))
  /\ get_output_path (str "04-27-2025_test.xlsx")
       (str "modified_excel_workbooks") w'
     = (Ok (str "modified_excel_workbooks/04-27-2025_test.xlsx"), w')
  /\ get_archive_path (str "04-27-2025_test.xlsx")
       (str "modified_excel_workbooks") w'
     = (Ok (str "modified_excel_workbooks/04-27-2025_test.xlsx"), w').
Proof.
  intros w'.
  apply (get_path_makes_directory _ _ _ one_file_world w').
  left. apply run_eq. vm_compute. reflexivity.
Defined.















(** ** Failures and repeated calls *)






(** ** The batch as a whole *)

Lemma batch_run_clock (od ad : list ascii) (files : list (list ascii))
    (w w' : world) (results : dict) :
  batch_run od ad files w results w' -> clock w' = clock w.
Proof.
  induction 1 as [|f rest w w1 w2 out results H _ IH
                  |f rest w w1 w2 e results H _ IH]; [done|..];
    rewrite IH; exact (proj1 (frames_process_excel_file _ _ _ _ _ _ H)).
Qed.

Lemma batch_run_outputs (od ad : list ascii) (files : list (list ascii))
    (w w' : world) (results : dict) (k : list ascii) (e : entry) :
  batch_run od ad files w results w' ->
  (k, e) ∈ results ->
  k ∈ files
  /\ (status e = true ->
      exists t,
        extract_date_from_filename (clock w) (basename k) = Ok t
        /\ output e = Some (join od (format_date t ++ "_"%char :: basename k)))
  /\ (status e = false -> exists msg, error e = Some msg).
Proof.
  induction 1 as [|f rest w w1 w2 out results H Hrun IH
                  |f rest w w1 w2 ex results H Hrun IH].
  - intros Hin. by apply elem_of_nil in Hin.
  - intros [[= -> ->]|Hin]%elem_of_cons.
    + split; [by left|]. simpl. split; [|discriminate]. intros _.
      apply process_excel_file_ok_inv in H
        as (t & _ & _ & _ & _ & Ht & -> & _). by exists t.
    + destruct (IH Hin) as (Hk & Hok & Herr). split; [by right|].
      rewrite (proj1 (frames_process_excel_file _ _ _ _ _ _ H)) in Hok.
      done.
  - intros [[= -> ->]|Hin]%elem_of_cons.
    + split; [by left|]. simpl. split; [discriminate|]. eauto.
    + destruct (IH Hin) as (Hk & Hok & Herr). split; [by right|].
      rewrite (proj1 (frames_process_excel_file _ _ _ _ _ _ H)) in Hok.
      done.
Qed.

(** X18: every key of the dictionary is a path that was found; an entry
    with a true flag has as output path the output directory joined with
    the date of the key's base name, an underscore and that base name; an
    entry with a false flag has an error message. *)
Theorem process_all_excel_files_outputs (directory output_dir archive_dir
    file_path : list ascii) (w w' : world) (files : list (list ascii))
    (results : dict) (e : entry) :
  find_excel_files directory w = (Ok files, w) ->
  process_all_excel_files directory output_dir archive_dir w
  = (Ok results, w') ->
  (file_path, e) ∈ results ->
  file_path ∈ files
  /\ (status e = true ->
      exists t,
        extract_date_from_filename (clock w) (basename file_path) = Ok t
        /\ output e
           = Some (join output_dir
                     (format_date t ++ "_"%char :: basename file_path)))
  /\ (status e = false -> exists msg, error e = Some msg).
Proof.
  intros Hf Hp Hin.
  destruct (process_all_excel_files_run directory output_dir archive_dir w)
    as (files' & results' & w'' & Hf' & Hp' & Hrun).
  rewrite Hf in Hf'. injection Hf' as <-.
  rewrite Hp in Hp'. injection Hp' as <- <-.
  by eapply batch_run_outputs.
Qed.

Lemma find_excel_files_eq (directory : list ascii) (w : world)
    (files : list (list ascii)) :
  (find_excel_files directory w).1 = Ok files ->
  find_excel_files directory w = (Ok files, w).
Proof. unfold find_excel_files. simpl. by intros ->. Qed.

Lemma process_all_excel_files_outputs_witness :
  str "data/test.xlsx" ∈ [str "data/test.xlsx"; str "data/bad.xlsx"]
  /\ (true = true ->
      exists t,
        extract_date_from_filename (clock batch_world)
          (basename (str "data/test.xlsx")) = Ok t
        /\ Some (str "modified_excel_workbooks/05-12-2024_test.xlsx")
           = Some (join (str "modified_excel_workbooks")
                     (format_date t ++ "_"%char
                      :: basename (str "data/test.xlsx"))))
  /\ (true = false -> exists msg, @None (list ascii) = Some msg).
Proof.
  apply (process_all_excel_files_outputs (str "data")
           (str "modified_excel_workbooks") (str "archived_data")
           (str "data/test.xlsx") batch_world
           (process_all_excel_files (str "data")
              (str "modified_excel_workbooks") (str "archived_data")
              batch_world).2
           [str "data/test.xlsx"; str "data/bad.xlsx"]
           [(str "data/test.xlsx",
             Entry true
               (Some (str "modified_excel_workbooks/05-12-2024_test.xlsx"))
               None);
            (str "data/bad.xlsx",
             Entry false None (Some (str "File is not a zip file")))]
           (Entry true
              (Some (str "modified_excel_workbooks/05-12-2024_test.xlsx"))
              None)).
  - apply find_excel_files_eq. vm_compute. reflexivity.
  - apply run_eq. vm_compute. reflexivity.
  - repeat constructor.
Defined.

Lemma found_path_texts (directory : list ascii) (w w' : world)
    (files : list (list ascii)) (p : list ascii) :
  find_excel_files directory w = (Ok files, w') -> p ∈ files ->
  py_in (str "modified_excel_workbooks") p = false
  /\ py_in (str "archived_data") p = false.
Proof.
  unfold find_excel_files. intros [= <- <-] Hp.
  apply list_elem_of_In, filter_In in Hp as [_ Hp].
  apply andb_true_iff in Hp as [H1 H2].
  by apply negb_true_iff in H1, H2.
Qed.

(** X19: what a call has written is not found again: when the output
    directory's path holds the text modified_excel_workbooks and the archive
    directory's path holds the text archived_data, as the defaults do,
    neither the output path nor the archive path of a processed file is ever
    returned by [find_excel_files], in any world and for any directory. *)
Theorem processed_files_not_found_again (excel_path output_dir archive_dir
    output_path directory : list ascii) (w w' w2 w2' : world)
    (files : list (list ascii)) :
  substring (str "modified_excel_workbooks") output_dir ->
  substring (str "archived_data") archive_dir ->
  process_excel_file excel_path output_dir archive_dir w
  = (Ok output_path, w') ->
  find_excel_files directory w2 = (Ok files, w2') ->
  (output_path ∉ files)
  /\ (join archive_dir (basename excel_path) ∉ files).
Proof.
  intros Hod Had H Hf.
  apply process_excel_file_ok_inv in H as (t & _ & _ & _ & _ & _ & -> & _).
  split; intros Hin; destruct (found_path_texts _ _ _ _ _ Hf Hin) as [H1 H2].
  - apply not_true_iff_false in H1. apply H1, py_in_spec, join_substring.
    + apply startswith_sep_no_sep, new_name_no_sep.
    + done.
  - apply not_true_iff_false in H2. apply H2, py_in_spec, join_substring.
    + apply startswith_sep_no_sep, basename_no_sep.
    + done.
Qed.

Lemma processed_files_not_found_again_witness :
  let w' := (process_excel_file (str "tmp/test.xlsx")
               (str "tmp/modified_excel_workbooks") (str "tmp/archived_data")
               one_file_world).2 in
  let files := match (find_excel_files (str "tmp/archived_data") w').1 with
               | Ok l => l
               | Raise _ => []
               end in
  (str "tmp/modified_excel_workbooks/05-12-2024_test.xlsx" ∉ files)
  /\ (join (str "tmp/archived_data") (basename (str "tmp/test.xlsx")) ∉ files).
Proof.
  intros w' files.
  apply (processed_files_not_found_again (str "tmp/test.xlsx")
           (str "tmp/modified_excel_workbooks") (str "tmp/archived_data")
           (str "tmp/modified_excel_workbooks/05-12-2024_test.xlsx")
           (str "tmp/archived_data") one_file_world w' w'
           (find_excel_files (str "tmp/archived_data") w').2 files).
  - exists (str "tmp/"), []. reflexivity.
  - exists (str "tmp/"), []. reflexivity.
  - apply run_eq. vm_compute. reflexivity.
  - reflexivity.
Defined.

Lemma fold_right_ones {A : Type} (l : list A) :
  fold_right Z.add 0 (map (fun _ => 1) l) = Z.of_nat (length l).
Proof. induction l as [|x l IH]; simpl length; simpl fold_right; lia. Qed.

Lemma filter_length_split {A : Type} (f g : A -> bool) (l : list A) :
  (forall x, In x l -> g x = negb (f x)) ->
  (length (List.filter f l) + length (List.filter g l) = length l)%nat.
Proof.
  induction l as [|x l IH]; intros H; [done|]. simpl.
  rewrite (H x) by by left.
  assert (forall y, In y l -> g y = negb (f y)) as H'
    by (intros y Hy; apply H; by right).
  specialize (IH H'). destruct (f x); simpl; lia.
Qed.

(** X20: the two counts the script prints: the files processed are the
    entries with an output path, the files failed are the entries with an
    error message, and together they are the files found. *)
Theorem summary_counts (directory output_dir archive_dir : list ascii)
    (w w' : world) (files : list (list ascii)) (results : dict) :
  find_excel_files directory w = (Ok files, w) ->
  process_all_excel_files directory output_dir archive_dir w
  = (Ok results, w') ->
  processed_count results
  = Z.of_nat (length (List.filter
                        (fun kv => bool_decide (is_Some (output kv.2)))
                        results))
  /\ failed_count results
     = Z.of_nat (length (List.filter
                           (fun kv => bool_decide (is_Some (error kv.2)))
                           results))
  /\ processed_count results + failed_count results
     = Z.of_nat (length files).
Proof.
  intros Hf Hp.
  destruct (process_all_excel_files_run directory output_dir archive_dir w)
    as (files' & results' & w'' & Hf' & Hp' & Hrun).
  rewrite Hf in Hf'. injection Hf' as <-.
  rewrite Hp in Hp'. injection Hp' as <- <-.
  pose proof (batch_run_entries _ _ _ _ _ _ Hrun) as Hok.
  rewrite Forall_forall in Hok.
  assert (length results = length files) as Hlen.
  { rewrite <- (batch_run_keys _ _ _ _ _ _ Hrun). by rewrite length_fmap. }
  unfold failed_count, processed_count. rewrite fold_right_ones.
  assert (List.filter (fun kv => status kv.2) results
          = List.filter (fun kv => bool_decide (is_Some (output kv.2)))
              results) as ->.
  { apply filter_ext_in. intros kv Hkv.
    apply list_elem_of_In, Hok in Hkv as [_ Hst].
    apply eq_true_iff_eq. rewrite bool_decide_eq_true. done. }
  pose proof (filter_length_split
                (fun kv : list ascii * entry =>
                   bool_decide (is_Some (output kv.2)))
                (fun kv => bool_decide (is_Some (error kv.2))) results) as Hs.
  rewrite <- Hlen. split; [done|].
  assert (length (List.filter (fun kv : list ascii * entry =>
                                 bool_decide (is_Some (output kv.2))) results)
          + length (List.filter (fun kv : list ascii * entry =>
                                   bool_decide (is_Some (error kv.2))) results)
          = length results)%nat as Hsum.
  { apply Hs. intros kv Hkv.
    apply list_elem_of_In, Hok in Hkv as [[[Ho He]|[Ho He]] _];
      destruct (output kv.2) as [o|], (error kv.2) as [m|]; try done;
      try (by destruct Ho); try (by destruct He). }
  lia.
Qed.

Lemma summary_counts_witness :
  let results :=
    [(str "data/test.xlsx",
      Entry true (Some (str "modified_excel_workbooks/05-12-2024_test.xlsx"))
        None);
     (str "data/bad.xlsx",
      Entry false None (Some (str "File is not a zip file")))] in
  (processed_count results = 1 /\ failed_count results = 1)
  /\ processed_count results
     = Z.of_nat (length (List.filter
                           (fun kv => bool_decide (is_Some (output kv.2)))
                           results))
  /\ failed_count results
     = Z.of_nat (length (List.filter
                           (fun kv => bool_decide (is_Some (error kv.2)))
                           results))
  /\ processed_count results + failed_count results
     = Z.of_nat (length [str "data/test.xlsx"; str "data/bad.xlsx"]).
Proof.
  intros results. split; [by vm_compute|].
  apply (summary_counts (str "data") (str "modified_excel_workbooks")
           (str "archived_data") batch_world
           (process_all_excel_files (str "data")
              (str "modified_excel_workbooks") (str "archived_data")
              batch_world).2).
  - apply find_excel_files_eq. vm_compute. reflexivity.
  - apply run_eq. vm_compute. reflexivity.
Defined.
